(** * Guided Inbetween: the stroke-advance watcher of [guided_tweening.py]

    A shallow embedding of the add-on's module state, of the helpers that
    read the host document, of the polling watcher [_watch_timer], of the
    start and stop operators and of the stroke selection of the overlay
    renderer, followed by the properties of the watcher state machine.

    Conventions of the embedding.
    - Python integers are [Z]; [len] is [Z.of_nat (length _)].
    - A position ([mathutils.Vector]) is a triple of rationals; the code
      modelled here never inspects one, and the [matrix_world] of an object
      is the map it induces on positions.
    - [time.time()] yields a rational number of seconds; the subtraction of
      two time stamps is exact.
    - A call into the host that may raise takes its outcome from the
      [Host] record of the poll or command; module globals written before
      the exception keep their new values, as in Python. Only exceptions of
      class [Exception] are modelled. *)

From Stdlib Require Import ZArith List String QArith Bool Lia.
Import ListNotations.

Local Open Scope Z_scope.

(* ------------------------------------------------------------------ *)
(** ** The host document *)

(** [mathutils.Vector]: three coordinates. *)
Definition Vector : Type := (Q * Q * Q)%type.

(** [stroke.points], as the positions of the points. *)
Definition Stroke := list Vector.

(** A frame of a layer; [drawing] may be absent. *)
Record GPFrame := {
  frame_number : Z;
  drawing : option (list Stroke)   (* fr.drawing.strokes *)
}.

Record Layer := {
  active_frame : option GPFrame;
  frames : list GPFrame
}.

(** [obj.data.layers] and [obj.data.layers.active]. *)
Record GPData := {
  layers : list Layer;
  layers_active : option Layer
}.

Record Object := {
  type : string;
  data : GPData;
  matrix_world : Vector -> Vector   (* p |-> mat @ Vector(p) *)
}.

(** The scene: current frame and the three behaviour properties, each of
    which may be unregistered ([getattr] then yields its default). *)
Record Scene := {
  frame_current : Z;
  gi_lock_frame : option bool;
  gi_advance_on_release : option bool;
  gi_integrity_check : option Z
}.

Record Context := {
  object : option Object;
  scene : Scene;
  region : bool;        (* context.region is not None *)
  region_data : bool    (* context.region_data is not None *)
}.

Definition getattr {A} (field : option A) (default : A) : A :=
  match field with Some v => v | None => default end.

Definition len {A} (l : list A) : Z := Z.of_nat (List.length l).

Definition get_active_gp (context : Context) : option Object :=
  match object context with
  | Some o => if String.eqb (type o) "GREASEPENCIL" then Some o else None
  | None => None
  end.

(** [bool(fr.drawing.strokes)] for a frame whose drawing exists. *)
Definition has_strokes (fr : GPFrame) : bool :=
  match drawing fr with
  | Some (_ :: _) => true
  | _ => false
  end.

(** One iteration of the loop of [find_nearest_previous_frame]; the
    accumulator is [(nearest, best)], with [None] for the infinite [best]. *)
Definition nearer (current_frame_num : Z)
    (acc : option GPFrame * option Z) (fr : GPFrame)
    : option GPFrame * option Z :=
  if (frame_number fr <? current_frame_num) && has_strokes fr then
    let d := current_frame_num - frame_number fr in
    match snd acc with
    | None => (Some fr, Some d)
    | Some best => if d <? best then (Some fr, Some d) else acc
    end
  else acc.

Definition find_nearest_previous_frame (layer : Layer) (current_frame_num : Z)
    : option GPFrame :=
  fst (fold_left (nearer current_frame_num) (frames layer) (None, None)).

Definition get_previous_frame_strokes_world (context : Context)
    : list Stroke :=
  match get_active_gp context with
  | None => []
  | Some obj =>
    match layers (data obj), layers_active (data obj) with
    | [], _ => []
    | _, None => []
    | _ :: _, Some layer =>
      let current := frame_current (scene context) in
      match find_nearest_previous_frame layer current with
      | None => []
      | Some nearest =>
        match drawing nearest with
        | None => []     (* AttributeError inside the try: return [] *)
        | Some strokes =>
          filter (fun pts => 1 <=? len pts)
                 (map (map (matrix_world obj)) strokes)
        end
      end
    end
  end.

(** The frame looked up by [get_frame_stroke_count] and
    [get_last_stroke_pointlen]: the active frame when it has the number,
    else the first frame of the layer with that number. *)
Definition lookup_frame (layer : Layer) (frame_number' : Z) : option GPFrame :=
  match active_frame layer with
  | Some af =>
    if frame_number af =? frame_number' then Some af
    else find (fun f => frame_number f =? frame_number') (frames layer)
  | None => find (fun f => frame_number f =? frame_number') (frames layer)
  end.

Definition get_frame_stroke_count (context : Context) (frame_number' : Z) : Z :=
  match get_active_gp context with
  | None => 0
  | Some obj =>
    match layers (data obj), layers_active (data obj) with
    | [], _ => 0
    | _, None => 0
    | _ :: _, Some layer =>
      match lookup_frame layer frame_number' with
      | None => 0
      | Some fr =>
        match drawing fr with
        | None => 0
        | Some strokes => len strokes
        end
      end
    end
  end.

(** Number of points of the last stroke on the frame, or 0. *)
Definition get_last_stroke_pointlen (context : Context) (frame_number' : Z) : Z :=
  match get_active_gp context with
  | None => 0
  | Some obj =>
    match layers_active (data obj) with
    | None => 0
    | Some layer =>
      match lookup_frame layer frame_number' with
      | None => 0
      | Some fr =>
        match drawing fr with
        | None => 0
        | Some strokes =>
          match rev strokes with
          | [] => 0
          | last :: _ => len last
          end
        end
      end
    end
  end.

(* ------------------------------------------------------------------ *)
(** ** Module globals *)

(** The object returned by [draw_handler_add]. *)
Definition Handle := Z.

Record Session := {
  _draw_handle : option Handle;
  _timer_keep : bool;
  _guide_strokes_world : list Stroke;
  _guide_index : Z;
  _monitored_frame : option Z;
  _last_current_frame_count : Z;
  _pending_active : bool;
  _pending_target : Z;
  _pending_time : Q;
  _pending_last_pointlen : Z;
  _advances_since_check : Z
}.

Definition _debounce_seconds : Q := 35 # 100.

(** The interval [_watch_timer] returns to be rescheduled. *)
Definition poll_interval : Q := 12 # 100.

(** Assignments to one global. *)
Definition set_draw_handle (v : option Handle) (g : Session) : Session :=
  {| _draw_handle := v; _timer_keep := _timer_keep g;
     _guide_strokes_world := _guide_strokes_world g;
     _guide_index := _guide_index g; _monitored_frame := _monitored_frame g;
     _last_current_frame_count := _last_current_frame_count g;
     _pending_active := _pending_active g; _pending_target := _pending_target g;
     _pending_time := _pending_time g;
     _pending_last_pointlen := _pending_last_pointlen g;
     _advances_since_check := _advances_since_check g |}.

Definition set_timer_keep (v : bool) (g : Session) : Session :=
  {| _draw_handle := _draw_handle g; _timer_keep := v;
     _guide_strokes_world := _guide_strokes_world g;
     _guide_index := _guide_index g; _monitored_frame := _monitored_frame g;
     _last_current_frame_count := _last_current_frame_count g;
     _pending_active := _pending_active g; _pending_target := _pending_target g;
     _pending_time := _pending_time g;
     _pending_last_pointlen := _pending_last_pointlen g;
     _advances_since_check := _advances_since_check g |}.

Definition set_guide_strokes_world (v : list Stroke) (g : Session) : Session :=
  {| _draw_handle := _draw_handle g; _timer_keep := _timer_keep g;
     _guide_strokes_world := v;
     _guide_index := _guide_index g; _monitored_frame := _monitored_frame g;
     _last_current_frame_count := _last_current_frame_count g;
     _pending_active := _pending_active g; _pending_target := _pending_target g;
     _pending_time := _pending_time g;
     _pending_last_pointlen := _pending_last_pointlen g;
     _advances_since_check := _advances_since_check g |}.

Definition set_guide_index (v : Z) (g : Session) : Session :=
  {| _draw_handle := _draw_handle g; _timer_keep := _timer_keep g;
     _guide_strokes_world := _guide_strokes_world g;
     _guide_index := v; _monitored_frame := _monitored_frame g;
     _last_current_frame_count := _last_current_frame_count g;
     _pending_active := _pending_active g; _pending_target := _pending_target g;
     _pending_time := _pending_time g;
     _pending_last_pointlen := _pending_last_pointlen g;
     _advances_since_check := _advances_since_check g |}.

Definition set_monitored_frame (v : option Z) (g : Session) : Session :=
  {| _draw_handle := _draw_handle g; _timer_keep := _timer_keep g;
     _guide_strokes_world := _guide_strokes_world g;
     _guide_index := _guide_index g; _monitored_frame := v;
     _last_current_frame_count := _last_current_frame_count g;
     _pending_active := _pending_active g; _pending_target := _pending_target g;
     _pending_time := _pending_time g;
     _pending_last_pointlen := _pending_last_pointlen g;
     _advances_since_check := _advances_since_check g |}.

Definition set_last_current_frame_count (v : Z) (g : Session) : Session :=
  {| _draw_handle := _draw_handle g; _timer_keep := _timer_keep g;
     _guide_strokes_world := _guide_strokes_world g;
     _guide_index := _guide_index g; _monitored_frame := _monitored_frame g;
     _last_current_frame_count := v;
     _pending_active := _pending_active g; _pending_target := _pending_target g;
     _pending_time := _pending_time g;
     _pending_last_pointlen := _pending_last_pointlen g;
     _advances_since_check := _advances_since_check g |}.

Definition set_pending_active (v : bool) (g : Session) : Session :=
  {| _draw_handle := _draw_handle g; _timer_keep := _timer_keep g;
     _guide_strokes_world := _guide_strokes_world g;
     _guide_index := _guide_index g; _monitored_frame := _monitored_frame g;
     _last_current_frame_count := _last_current_frame_count g;
     _pending_active := v; _pending_target := _pending_target g;
     _pending_time := _pending_time g;
     _pending_last_pointlen := _pending_last_pointlen g;
     _advances_since_check := _advances_since_check g |}.

Definition set_pending_target (v : Z) (g : Session) : Session :=
  {| _draw_handle := _draw_handle g; _timer_keep := _timer_keep g;
     _guide_strokes_world := _guide_strokes_world g;
     _guide_index := _guide_index g; _monitored_frame := _monitored_frame g;
     _last_current_frame_count := _last_current_frame_count g;
     _pending_active := _pending_active g; _pending_target := v;
     _pending_time := _pending_time g;
     _pending_last_pointlen := _pending_last_pointlen g;
     _advances_since_check := _advances_since_check g |}.

Definition set_pending_time (v : Q) (g : Session) : Session :=
  {| _draw_handle := _draw_handle g; _timer_keep := _timer_keep g;
     _guide_strokes_world := _guide_strokes_world g;
     _guide_index := _guide_index g; _monitored_frame := _monitored_frame g;
     _last_current_frame_count := _last_current_frame_count g;
     _pending_active := _pending_active g; _pending_target := _pending_target g;
     _pending_time := v;
     _pending_last_pointlen := _pending_last_pointlen g;
     _advances_since_check := _advances_since_check g |}.

Definition set_pending_last_pointlen (v : Z) (g : Session) : Session :=
  {| _draw_handle := _draw_handle g; _timer_keep := _timer_keep g;
     _guide_strokes_world := _guide_strokes_world g;
     _guide_index := _guide_index g; _monitored_frame := _monitored_frame g;
     _last_current_frame_count := _last_current_frame_count g;
     _pending_active := _pending_active g; _pending_target := _pending_target g;
     _pending_time := _pending_time g;
     _pending_last_pointlen := v;
     _advances_since_check := _advances_since_check g |}.

Definition set_advances_since_check (v : Z) (g : Session) : Session :=
  {| _draw_handle := _draw_handle g; _timer_keep := _timer_keep g;
     _guide_strokes_world := _guide_strokes_world g;
     _guide_index := _guide_index g; _monitored_frame := _monitored_frame g;
     _last_current_frame_count := _last_current_frame_count g;
     _pending_active := _pending_active g; _pending_target := _pending_target g;
     _pending_time := _pending_time g;
     _pending_last_pointlen := _pending_last_pointlen g;
     _advances_since_check := v |}.

(* ------------------------------------------------------------------ *)
(** ** Effects: module state, exceptions and calls into the host *)

Inductive ReportLevel := INFO | WARNING | ERROR.

Inductive Message :=
| MsgSelectGreasePencil   (* Select a Grease Pencil object first *)
| MsgNoStrokes            (* No strokes found in previous frame *)
| MsgHandlerFailed        (* Failed to add handler (see console) *)
| MsgStarted (hints : Z) (frame : option Z)
| MsgStopped.             (* Guides stopped *)

(** What a run asks of the host, in order. *)
Inductive Effect :=
| TagRedraw                               (* every VIEW_3D area tagged *)
| Report (level : ReportLevel) (msg : Message)
| Debug (what : string)                   (* debug(...) with a traceback *)
| HandlerAdd (h : Handle)
| HandlerRemove (h : Handle)
| TimerRegister
| Paint (stroke_world : Stroke).          (* the drawing of one guide stroke *)

Inductive Outcome (A : Type) :=
| Ret (a : A)
| Raise.

Arguments Ret {A} a.
Arguments Raise {A}.

Record Run (A : Type) := {
  outcome : Outcome A;
  globals : Session;
  effects : list Effect
}.

Arguments outcome {A} r.
Arguments globals {A} r.
Arguments effects {A} r.

Definition M (A : Type) := Session -> Run A.

Definition ret {A} (a : A) : M A :=
  fun g => {| outcome := Ret a; globals := g; effects := [] |}.

Definition raise {A} : M A :=
  fun g => {| outcome := Raise; globals := g; effects := [] |}.

Definition bind {A B} (m : M A) (k : A -> M B) : M B :=
  fun g =>
    match m g with
    | {| outcome := Ret a; globals := g1; effects := e1 |} =>
      match k a g1 with
      | {| outcome := o; globals := g2; effects := e2 |} =>
        {| outcome := o; globals := g2; effects := e1 ++ e2 |}
      end
    | {| outcome := Raise; globals := g1; effects := e1 |} =>
      {| outcome := Raise; globals := g1; effects := e1 |}
    end.

Definition get : M Session :=
  fun g => {| outcome := Ret g; globals := g; effects := [] |}.

Definition modify (f : Session -> Session) : M unit :=
  fun g => {| outcome := Ret tt; globals := f g; effects := [] |}.

Definition emit (e : Effect) : M unit :=
  fun g => {| outcome := Ret tt; globals := g; effects := [e] |}.

(** [try: body except Exception: handler]. *)
Definition try_except (body handler : M unit) : M unit :=
  fun g =>
    match body g with
    | {| outcome := Ret u; globals := g1; effects := e1 |} =>
      {| outcome := Ret u; globals := g1; effects := e1 |}
    | {| outcome := Raise; globals := g1; effects := e1 |} =>
      match handler g1 with
      | {| outcome := o; globals := g2; effects := e2 |} =>
        {| outcome := o; globals := g2; effects := e1 ++ e2 |}
      end
    end.

Declare Scope py_scope.
Delimit Scope py_scope with py.
Notation "x <- m ;; k" := (bind m (fun x => k))
  (at level 61, m at next level, right associativity) : py_scope.
Notation "m ;; k" := (bind m (fun _ => k))
  (at level 61, right associativity) : py_scope.
Local Open Scope py_scope.

(** What the host does during one poll or one command. *)
Record Host := {
  context : Context;              (* bpy.context, and the operator's context *)
  time_time : Q;                  (* time.time() *)
  context_raises : bool;          (* the timer's reads of bpy.context raise *)
  snapshot_raises : bool;         (* get_previous_frame_strokes_world raises *)
  redraw_raises : bool;           (* the walk over windows and areas raises *)
  handler_add : option Handle;    (* draw_handler_add: the handle, or it raises *)
  handler_remove_raises : bool;   (* draw_handler_remove raises *)
  paint_raises : bool             (* projecting or drawing a stroke raises *)
}.

(** [for w in windows: for a in w.screen.areas: if VIEW_3D: a.tag_redraw()]. *)
Definition tag_redraw_view3d (host : Host) : M unit :=
  if redraw_raises host then raise else emit TagRedraw.

(* ------------------------------------------------------------------ *)
(** ** The watcher *)

(** [min(count, max(0, len(_guide_strokes_world)-1))] when the list is
    non-empty, else 0: the index a re-baseline or a removal assigns. *)
Definition resync_index (count : Z) (g : Session) : Z :=
  match _guide_strokes_world g with
  | [] => 0
  | _ :: _ => Z.min count (Z.max 0 (len (_guide_strokes_world g) - 1))
  end.

(** The statements under [if added > 0] of the commit and under [else] of
    the immediate advance, which are the same but for the name of the new
    count ([_pending_target], resp. [current_count]). *)
Definition advance (host : Host) (added new_count : Z) : M unit :=
  g <- get ;;
  modify (set_guide_index
            (Z.min (_guide_index g + added)
                   (Z.max 0 (len (_guide_strokes_world g) - 1)))) ;;
  modify (set_last_current_frame_count new_count) ;;
  modify (set_advances_since_check (_advances_since_check g + added)) ;;
  g <- get ;;
  (if getattr (gi_integrity_check (scene (context host))) 3
        <=? _advances_since_check g
   then
     modify (set_advances_since_check 0) ;;
     (if snapshot_raises host then raise
      else modify (set_guide_strokes_world
                     (get_previous_frame_strokes_world (context host))))
   else ret tt) ;;
  tag_redraw_view3d host.

(** [_monitored_frame is None or current_frame != _monitored_frame]. *)
Definition frame_changed (monitored : option Z) (current_frame : Z) : bool :=
  match monitored with
  | None => true
  | Some m => negb (current_frame =? m)
  end.

Definition is_some {A} (o : option A) : bool :=
  match o with Some _ => true | None => false end.

(** [get_last_stroke_pointlen(context, _monitored_frame)]; the callers run
    with the monitored frame set. *)
Definition monitored_pointlen (host : Host) (g : Session) : Z :=
  match _monitored_frame g with
  | Some m => get_last_stroke_pointlen (context host) m
  | None => 0
  end.

(** The suite of the [try] of [_watch_timer]. *)
Definition _watch_timer_try (host : Host) : M unit :=
  (if context_raises host then raise else ret tt) ;;
  let context := context host in
  let scene := scene context in
  let current_frame := frame_current scene in
  let current_count := get_frame_stroke_count context current_frame in
  g <- get ;;
  if frame_changed (_monitored_frame g) current_frame then
    if getattr (gi_lock_frame scene) false && is_some (_monitored_frame g) then
      modify (set_last_current_frame_count current_count) ;;
      modify (set_pending_active false)
    else
      modify (set_monitored_frame (Some current_frame)) ;;
      modify (set_last_current_frame_count current_count) ;;
      g <- get ;;
      modify (set_guide_index (resync_index (_last_current_frame_count g) g)) ;;
      modify (set_pending_active false) ;;
      tag_redraw_view3d host
  else
    if _pending_active g then
      if negb (current_count =? _pending_target g) then
        modify (set_pending_target current_count) ;;
        modify (set_pending_last_pointlen (monitored_pointlen host g)) ;;
        modify (set_pending_time (time_time host))
      else
        let cur_len := monitored_pointlen host g in
        let now := time_time host in
        if negb (cur_len =? _pending_last_pointlen g) then
          modify (set_pending_last_pointlen cur_len) ;;
          modify (set_pending_time now)
        else
          if Qle_bool _debounce_seconds (now - _pending_time g) then
            let added := _pending_target g - _last_current_frame_count g in
            (if 0 <? added then advance host added (_pending_target g)
             else ret tt) ;;
            modify (set_pending_active false)
          else ret tt
    else
      if _last_current_frame_count g <? current_count then
        let added := current_count - _last_current_frame_count g in
        if getattr (gi_advance_on_release scene) false then
          modify (set_pending_active true) ;;
          modify (set_pending_target current_count) ;;
          modify (set_pending_time (time_time host)) ;;
          modify (set_pending_last_pointlen (monitored_pointlen host g))
        else
          advance host added current_count
      else if current_count <? _last_current_frame_count g then
        modify (set_last_current_frame_count current_count) ;;
        modify (set_pending_active false) ;;
        g <- get ;;
        modify (set_guide_index (resync_index current_count g)) ;;
        tag_redraw_view3d host
      else ret tt.

(** [None] ends the timer; a number reschedules the poll. *)
Definition _watch_timer (host : Host) : M (option Q) :=
  g <- get ;;
  if negb (_timer_keep g) then ret None
  else
    match _draw_handle g with
    | None => modify (set_timer_keep false) ;; ret None
    | Some _ =>
      try_except (_watch_timer_try host)
                 (emit (Debug "Exception in _watch_timer")) ;;
      ret (Some poll_interval)
    end.

(** The globals after one poll, and after a sequence of polls. *)
Definition poll (g : Session) (host : Host) : Session :=
  globals (_watch_timer host g).

Definition run_polls (g : Session) (hosts : list Host) : Session :=
  fold_left poll hosts g.

(* ------------------------------------------------------------------ *)
(** ** The operators *)

Inductive Status := FINISHED | CANCELLED.

(** [GP_OT_GuideStart.execute]. *)
Definition GP_OT_GuideStart_execute (host : Host) : M Status :=
  let context := context host in
  match get_active_gp context with
  | None =>
    emit (Report WARNING MsgSelectGreasePencil) ;; ret CANCELLED
  | Some _ =>
    (if snapshot_raises host then raise else ret tt) ;;
    match get_previous_frame_strokes_world context with
    | [] => emit (Report WARNING MsgNoStrokes) ;; ret CANCELLED
    | (_ :: _) as strokes =>
      modify (set_guide_strokes_world strokes) ;;
      modify (set_monitored_frame (Some (frame_current (scene context)))) ;;
      modify (set_last_current_frame_count
                (get_frame_stroke_count context (frame_current (scene context)))) ;;
      g <- get ;;
      modify (set_guide_index
                (Z.min (_last_current_frame_count g)
                       (Z.max 0 (len (_guide_strokes_world g) - 1)))) ;;
      modify (set_pending_active false) ;;
      modify (set_advances_since_check 0) ;;
      g <- get ;;
      installed <-
        match _draw_handle g with
        | Some _ => ret true
        | None =>
          match handler_add host with
          | Some h =>
            emit (HandlerAdd h) ;; modify (set_draw_handle (Some h)) ;; ret true
          | None =>
            emit (Debug "handler add failed") ;;
            emit (Report ERROR MsgHandlerFailed) ;;
            modify (set_draw_handle None) ;;
            ret false
          end
        end ;;
      if installed : bool then
        modify (set_timer_keep true) ;;
        emit TimerRegister ;;
        tag_redraw_view3d host ;;
        g <- get ;;
        emit (Report INFO (MsgStarted (len (_guide_strokes_world g))
                                      (_monitored_frame g))) ;;
        ret FINISHED
      else ret CANCELLED
    end
  end.

(** [GP_OT_GuideStop.execute]. *)
Definition GP_OT_GuideStop_execute (host : Host) : M Status :=
  g <- get ;;
  match _draw_handle g with
  | Some h =>
    (if handler_remove_raises host
     then emit (Debug "handler remove failed")
     else emit (HandlerRemove h)) ;;
    modify (set_draw_handle None)
  | None => ret tt
  end ;;
  modify (set_timer_keep false) ;;
  modify (set_guide_strokes_world []) ;;
  modify (set_monitored_frame None) ;;
  modify (set_pending_active false) ;;
  tag_redraw_view3d host ;;
  emit (Report INFO MsgStopped) ;;
  ret FINISHED.

(* ------------------------------------------------------------------ *)
(** ** The draw handler, up to the choice of the stroke *)

(** [l[i]] of a Python list: negative indices count from the end, and an
    index outside [-len, len) raises [IndexError] ([None]). *)
Definition py_getitem {A} (l : list A) (i : Z) : option A :=
  if (0 <=? i) && (i <? len l) then nth_error l (Z.to_nat i)
  else if (- len l <=? i) && (i <? 0) then nth_error l (Z.to_nat (len l + i))
  else None.

(** [idx = max(0, min(_guide_index, len(_guide_strokes_world)-1))]. *)
Definition draw_index (g : Session) : Z :=
  Z.max 0 (Z.min (_guide_index g) (len (_guide_strokes_world g) - 1)).

(** [draw_guides]: everything after the subscript (projection, markers,
    path and arrows of the chosen stroke) is the single effect [Paint]. *)
Definition draw_guides (host : Host) : M unit :=
  try_except
    (g <- get ;;
     match _guide_strokes_world g with
     | [] => ret tt
     | _ :: _ =>
       if negb (region (context host)) || negb (region_data (context host))
       then ret tt
       else
         match py_getitem (_guide_strokes_world g) (draw_index g) with
         | None => raise
         | Some stroke_world =>
           if paint_raises host then raise else emit (Paint stroke_world)
         end
     end)
    (emit (Debug "Exception in draw_guides")).

(* ------------------------------------------------------------------ *)
(** ** Vocabulary of the statements *)

(** A session is active: the timer is kept and the draw handler is set. *)
Definition running (g : Session) : Prop :=
  _timer_keep g = true /\ _draw_handle g <> None.

(** What one poll reads from the host. *)
Definition live_frame (host : Host) : Z :=
  frame_current (scene (context host)).

Definition live_count (host : Host) : Z :=
  get_frame_stroke_count (context host) (live_frame host).

Definition live_pointlen (host : Host) : Z :=
  get_last_stroke_pointlen (context host) (live_frame host).

Definition fresh_snapshot (host : Host) : list Stroke :=
  get_previous_frame_strokes_world (context host).

Definition lock_mode (host : Host) : bool :=
  getattr (gi_lock_frame (scene (context host))) false.

Definition release_mode (host : Host) : bool :=
  getattr (gi_advance_on_release (scene (context host))) false.

Definition threshold (host : Host) : Z :=
  getattr (gi_integrity_check (scene (context host))) 3.

(** The poll runs on the monitored frame. *)
Definition same_frame (g : Session) (host : Host) : Prop :=
  _monitored_frame g = Some (live_frame host).

(** The poll of [host] in state [g] is a watcher advance by [added]: the
    immediate advance, or the resolution of a pending commit. *)
Definition advances (g : Session) (host : Host) (added : Z) : Prop :=
  running g /\ context_raises host = false /\ same_frame g host /\
  0 < added /\
  ((_pending_active g = false /\ release_mode host = false /\
    added = live_count host - _last_current_frame_count g)
   \/
   (_pending_active g = true /\
    live_count host = _pending_target g /\
    live_pointlen host = _pending_last_pointlen g /\
    (_debounce_seconds <= time_time host - _pending_time g)%Q /\
    added = _pending_target g - _last_current_frame_count g)).

(** The guide index is a position of the cached list. *)
Definition index_in_range (g : Session) : Prop :=
  0 <= _guide_index g /\
  (_guide_strokes_world g <> [] ->
   _guide_index g < len (_guide_strokes_world g)).

(** Since the poll of [e0], every later poll that read the document saw
    the frame, the stroke count and the last stroke's point count of [e0]. *)
Definition stable_since (e0 : Host) (later : list Host) : Prop :=
  Forall (fun e =>
            context_raises e = true \/
            (live_frame e = live_frame e0 /\
             live_count e = live_count e0 /\
             live_pointlen e = live_pointlen e0))
         later.

(** *** The advance block and the poll as functions of the globals *)

Definition advance_index (added : Z) (g : Session) : Z :=
  Z.min (_guide_index g + added) (Z.max 0 (len (_guide_strokes_world g) - 1)).

Definition advance_counter (host : Host) (added : Z) (g : Session) : Z :=
  if threshold host <=? _advances_since_check g + added then 0
  else _advances_since_check g + added.

Definition advance_strokes (host : Host) (added : Z) (g : Session) : list Stroke :=
  if (threshold host <=? _advances_since_check g + added)
     && negb (snapshot_raises host)
  then fresh_snapshot host else _guide_strokes_world g.

Definition advance_raises (host : Host) (added : Z) (g : Session) : bool :=
  ((threshold host <=? _advances_since_check g + added) && snapshot_raises host)
  || redraw_raises host.

(** The globals after the suite of the [try], as a function of the globals
    before; [watch_try_globals] proves it equal to the run of
    [_watch_timer_try]. *)
Definition watch_globals (host : Host) (g : Session) : Session :=
  let c := live_count host in
  let now := time_time host in
  if context_raises host then g
  else if frame_changed (_monitored_frame g) (live_frame host) then
    if lock_mode host && is_some (_monitored_frame g) then
      set_pending_active false (set_last_current_frame_count c g)
    else
      let g1 := set_last_current_frame_count c
                  (set_monitored_frame (Some (live_frame host)) g) in
      set_pending_active false (set_guide_index (resync_index c g1) g1)
  else if _pending_active g then
    if negb (c =? _pending_target g) then
      set_pending_time now
        (set_pending_last_pointlen (monitored_pointlen host g)
           (set_pending_target c g))
    else if negb (monitored_pointlen host g =? _pending_last_pointlen g) then
      set_pending_time now
        (set_pending_last_pointlen (monitored_pointlen host g) g)
    else if Qle_bool _debounce_seconds (now - _pending_time g) then
      let added := _pending_target g - _last_current_frame_count g in
      if 0 <? added then
        let g1 := globals (advance host added (_pending_target g) g) in
        if advance_raises host added g then g1
        else set_pending_active false g1
      else set_pending_active false g
    else g
  else if _last_current_frame_count g <? c then
    if release_mode host then
      set_pending_last_pointlen (monitored_pointlen host g)
        (set_pending_time now
           (set_pending_target c (set_pending_active true g)))
    else globals (advance host (c - _last_current_frame_count g) c g)
  else if c <? _last_current_frame_count g then
    let g1 := set_pending_active false (set_last_current_frame_count c g) in
    set_guide_index (resync_index c g1) g1
  else g.

(** The poll that recorded the pending sub-state, and the polls since. *)
Definition pending_origin (hosts : list Host) (g : Session) : Prop :=
  exists pre e0 later,
    hosts = pre ++ e0 :: later /\
    context_raises e0 = false /\
    _monitored_frame g = Some (live_frame e0) /\
    _pending_target g = live_count e0 /\
    _pending_last_pointlen g = live_pointlen e0 /\
    _pending_time g = time_time e0 /\
    stable_since e0 later.


(* ------------------------------------------------------------------ *)
(** ** A session on a two-frame document *)

Module Scenario.

(** Points on a line, by number; the object is not moved. *)
Definition pt (n : Z) : Vector := (inject_Z n, 0, 0)%Q.

(** A stroke of [n] points. *)
Definition stroke_of (n : Z) : Stroke := repeat (pt 7) (Z.to_nat n).

Definition source_strokes : list Stroke :=
  [[pt 1; pt 2]; [pt 3; pt 4]; [pt 5; pt 6]].

(** The active layer seen from frame [current]: frame 1, when it is there,
    holds the [source] strokes, and frame 2 holds one stroke for each entry
    of [drawn], with that many points. The active frame is the one shown at
    [current]. *)
Definition layer_of (current : Z) (source : option (list Stroke))
    (drawn : list Z) : Layer :=
  let frame2 := {| frame_number := 2;
                   drawing := Some (map stroke_of drawn) |} in
  match source with
  | Some strokes =>
    let frame1 := {| frame_number := 1; drawing := Some strokes |} in
    {| active_frame := Some (if current <? 2 then frame1 else frame2);
       frames := [frame1; frame2] |}
  | None =>
    {| active_frame := Some frame2; frames := [frame2] |}
  end.

Record Options := {
  lock : bool;
  release : bool
}.

Definition immediate : Options := {| lock := false; release := false |}.
Definition on_release : Options := {| lock := false; release := true |}.
Definition locked : Options := {| lock := true; release := false |}.

(** The context at frame [current], with integrity interval 3. *)
Definition context_of (current : Z) (source : option (list Stroke))
    (drawn : list Z) (opts : Options) : Context :=
  let layer := layer_of current source drawn in
  {| object := Some {| type := "GREASEPENCIL";
                       data := {| layers := [layer];
                                  layers_active := Some layer |};
                       matrix_world := fun p => p |};
     scene := {| frame_current := current;
                 gi_lock_frame := Some (lock opts);
                 gi_advance_on_release := Some (release opts);
                 gi_integrity_check := Some 3 |};
     region := true;
     region_data := true |}.

(** A host that raises nothing, at time [t]. *)
Definition host_of (context : Context) (t : Q) : Host :=
  {| context := context; time_time := t;
     context_raises := false; snapshot_raises := false;
     redraw_raises := false; handler_add := Some 1;
     handler_remove_raises := false; paint_raises := false |}.

(** The same, but [draw_handler_add] raises. *)
Definition host_without_handler (context : Context) : Host :=
  {| context := context; time_time := 0;
     context_raises := false; snapshot_raises := false;
     redraw_raises := false; handler_add := None;
     handler_remove_raises := false; paint_raises := false |}.

(** The same as [host_of], but the redraw raises. *)
Definition host_failing_redraw (context : Context) (t : Q) : Host :=
  {| context := context; time_time := t;
     context_raises := false; snapshot_raises := false;
     redraw_raises := true; handler_add := Some 1;
     handler_remove_raises := false; paint_raises := false |}.

(** The module globals as the module is loaded. *)
Definition loaded : Session :=
  {| _draw_handle := None; _timer_keep := false;
     _guide_strokes_world := []; _guide_index := 0;
     _monitored_frame := None; _last_current_frame_count := 0;
     _pending_active := false; _pending_target := 0;
     _pending_time := 0; _pending_last_pointlen := 0;
     _advances_since_check := 0 |}.

(** Start on frame 2 holding [drawn], with the three source strokes on
    frame 1. *)
Definition started_on (drawn : list Z) : Session :=
  globals (GP_OT_GuideStart_execute
             (host_of (context_of 2 (Some source_strokes) drawn immediate) 0)
             loaded).

Definition started : Session := started_on [].

(** A poll on frame 2 in immediate mode with the source frame intact. *)
Definition draws (drawn : list Z) (t : Q) : Host :=
  host_of (context_of 2 (Some source_strokes) drawn immediate) t.

(** A poll on frame 2 in advance-on-release mode that sees the strokes
    [drawn]. *)
Definition sees (drawn : list Z) (t : Q) : Host :=
  host_of (context_of 2 (Some source_strokes) drawn on_release) t.

(** A first stroke under way, its point count growing 0.1 s apart, and the
    poll 0.35 s after the point count was last seen to change. *)
Definition growing_stroke : list Host :=
  [sees [3] 1; sees [5] (11 # 10); sees [8] (12 # 10)].

Definition settled_stroke : Host := sees [8] (155 # 100).

(** The source frame after two of its strokes were deleted. *)
Definition edited_source : list Stroke := [[pt 1; pt 2]].

(** Two strokes drawn, then a visit to frame 1, where two of the three
    source strokes are deleted, and the return to frame 2. *)
Definition edit_source_after_two : list Host :=
  [draws [2] 1; draws [2; 2] 2;
   host_of (context_of 1 (Some edited_source) [2; 2] immediate) 3;
   host_of (context_of 2 (Some edited_source) [2; 2] immediate) 4].

(** The third stroke is drawn on frame 2. *)
Definition third_stroke_after_edit : Host :=
  host_of (context_of 2 (Some edited_source) [2; 2; 2] immediate) 5.

(** Two strokes drawn; frame 1 is deleted while the third is drawn. *)
Definition delete_source_at_third : list Host :=
  [draws [2] 1; draws [2; 2] 2;
   host_of (context_of 2 None [2; 2; 2] immediate) 3].

Definition fourth_stroke_without_source : Host :=
  host_of (context_of 2 None [2; 2; 2; 2] immediate) 4.

End Scenario.

(* ------------------------------------------------------------------ *)
(** ** The arrow and tick placement of [draw_guides] *)

(** [range(start, stop, step)] for a positive [step]: the length is
    [(stop - start + step - 1) // step], or 0 when that is not positive. *)
Definition py_range (start stop step : Z) : list Z :=
  map (fun k => start + step * Z.of_nat k)
      (seq 0 (Z.to_nat ((stop - start + step - 1) / step))).

(** [max(0, min(margin_steps, seg_count//2))], where [raw] is the value of
    [int(math.ceil(seg_count * (margin_pct/100.0)))]. *)
Definition margin_steps (raw seg_count : Z) : Z :=
  Z.max 0 (Z.min raw (seg_count / 2)).

(** [step = max(1, int(seg_count / max(1, density)))], where [quot] is the
    truncated float quotient. *)
Definition arrow_step (quot : Z) : Z := Z.max 1 quot.

(** The values of [i] of the arrow loop, for [seg_count = len(pts2d)-1]. *)
Definition arrow_indices (raw quot seg_count : Z) : list Z :=
  py_range (margin_steps raw seg_count)
           (seg_count - margin_steps raw seg_count)
           (arrow_step quot).

(** The values of [i] of the loop over [mids], without arrows. *)
Definition tick_indices (quot seg_count : Z) : list Z :=
  py_range 0 seg_count (arrow_step quot).

(* ------------------------------------------------------------------ *)
(** ** Vocabulary of the further statements *)

(** A frame that [find_nearest_previous_frame] may return. *)
Definition eligible (current_frame_num : Z) (fr : GPFrame) : Prop :=
  frame_number fr < current_frame_num /\ has_strokes fr = true.

(** Index, last-seen count and integrity counter are not negative. *)
Definition counts_nonneg (g : Session) : Prop :=
  0 <= _guide_index g /\
  0 <= _last_current_frame_count g /\
  0 <= _advances_since_check g.

(* ------------------------------------------------------------------ *)
(** ** More states and hosts of the two-frame session *)

Module More.

(** The source frame and the active layer of the started session with two
    strokes drawn. *)
Definition source_frame : GPFrame :=
  {| frame_number := 1; drawing := Some Scenario.source_strokes |}.

Definition layer_two_drawn : Layer :=
  Scenario.layer_of 2 (Some Scenario.source_strokes) [2; 2].

Definition context_two_drawn : Context :=
  Scenario.context_of 2 (Some Scenario.source_strokes) [2; 2]
    Scenario.immediate.

(** The session after two single-stroke advances. *)
Definition two_drawn : Session :=
  run_polls Scenario.started [Scenario.draws [2] 1; Scenario.draws [2; 2] 2].

(** The third stroke, seen by a poll during which the snapshot raises. *)
Definition third_failing_snapshot : Host :=
  {| context := Scenario.context_of 2 (Some Scenario.source_strokes)
                  [2; 2; 2] Scenario.immediate;
     time_time := 3;
     context_raises := false; snapshot_raises := true;
     redraw_raises := false; handler_add := Some 1;
     handler_remove_raises := false; paint_raises := false |}.

(** The session whose index an integrity check left past the end of the
    cache, and the poll that sees a fourth stroke. *)
Definition out_of_range : Session :=
  poll (run_polls Scenario.started Scenario.edit_source_after_two)
       Scenario.third_stroke_after_edit.

Definition fourth_stroke_after_edit : Host :=
  Scenario.host_of
    (Scenario.context_of 2 (Some Scenario.edited_source) [2; 2; 2; 2]
       Scenario.immediate) 6.

(** A visit to frame 1, without the lock. *)
Definition visit_frame1 : Host :=
  Scenario.host_of
    (Scenario.context_of 1 (Some Scenario.source_strokes) []
       Scenario.immediate) 1.

(** The start of the scenario. *)
Definition start_host : Host :=
  Scenario.host_of
    (Scenario.context_of 2 (Some Scenario.source_strokes) []
       Scenario.immediate) 0.

(** The session waiting for the first stroke to settle; the poll that
    commits while the redraw raises; a later poll. *)
Definition waiting : Session :=
  run_polls Scenario.started Scenario.growing_stroke.

Definition settled_failing_redraw : Host :=
  Scenario.host_failing_redraw
    (Scenario.context_of 2 (Some Scenario.source_strokes) [8]
       Scenario.on_release) (155 # 100).

Definition settled_later : Host := Scenario.sees [8] (17 # 10).

(** Two strokes on the frame at start, a third begun, then two undone
    while the wait runs; the polls after the wait. *)
Definition undo_in_wait : Session :=
  poll (poll (Scenario.started_on [2; 2]) (Scenario.sees [2; 2; 4] 1))
       (Scenario.sees [2] (11 # 10)).

Definition undo_settled : Host := Scenario.sees [2] (15 # 10).

Definition undo_next : Host := Scenario.sees [2] (16 # 10).

(** The idle poll after two strokes, once the integrity interval has been
    lowered from 3 to 2 in the panel. *)
Definition lowered_interval : Host :=
  Scenario.host_of
    {| object := object context_two_drawn;
       scene := {| frame_current := 2;
                   gi_lock_frame := Some false;
                   gi_advance_on_release := Some false;
                   gi_integrity_check := Some 2 |};
       region := true;
       region_data := true |} 3.

(** A document with no object selected. *)
Definition nothing_selected : Context :=
  {| object := None;
     scene := {| frame_current := 2; gi_lock_frame := None;
                 gi_advance_on_release := None; gi_integrity_check := None |};
     region := true; region_data := true |}.

End More.

(* ------------------------------------------------------------------ *)
(** ** Running the watcher *)

Ltac unfold_py :=
  unfold tag_redraw_view3d, try_except, bind, get, modify, emit, ret, raise.

Lemma poll_stopped (g : Session) (host : Host) :
  _timer_keep g = false -> poll g host = g.
Proof.
  intros Hk. unfold poll, _watch_timer. unfold_py. simpl. rewrite Hk. reflexivity.
Qed.

Lemma poll_no_handle (g : Session) (host : Host) :
  _timer_keep g = true -> _draw_handle g = None ->
  poll g host = set_timer_keep false g.
Proof.
  intros Hk Hh. unfold poll, _watch_timer. unfold_py. simpl. rewrite Hk, Hh.
  reflexivity.
Qed.

Lemma poll_running (g : Session) (host : Host) :
  running g -> poll g host = globals (_watch_timer_try host g).
Proof.
  intros [Hk Hh]. unfold poll, _watch_timer. unfold_py. simpl. rewrite Hk.
  destruct (_draw_handle g); [|congruence]. simpl.
  destruct (_watch_timer_try host g) as [[u|] g1 e1]; reflexivity.
Qed.

Lemma try_context_raises (g : Session) (host : Host) :
  context_raises host = true -> globals (_watch_timer_try host g) = g.
Proof.
  intros Hc. unfold _watch_timer_try. unfold_py. simpl. rewrite Hc. reflexivity.
Qed.

Lemma frame_changed_same (g : Session) (host : Host) :
  same_frame g host ->
  frame_changed (_monitored_frame g) (live_frame host) = false.
Proof.
  unfold same_frame. intros ->. simpl. rewrite Z.eqb_refl. reflexivity.
Qed.

Lemma frame_changed_false (g : Session) (host : Host) :
  frame_changed (_monitored_frame g) (live_frame host) = false ->
  same_frame g host.
Proof.
  unfold same_frame, frame_changed.
  destruct (_monitored_frame g) as [m|]; [|discriminate].
  intros H. apply negb_false_iff, Z.eqb_eq in H. congruence.
Qed.

Lemma monitored_pointlen_same (g : Session) (host : Host) :
  same_frame g host -> monitored_pointlen host g = live_pointlen host.
Proof.
  unfold same_frame, monitored_pointlen, live_pointlen. intros ->. reflexivity.
Qed.

Lemma advance_globals (host : Host) (added new_count : Z) (g : Session) :
  globals (advance host added new_count g) =
  set_guide_strokes_world (advance_strokes host added g)
    (set_advances_since_check (advance_counter host added g)
       (set_last_current_frame_count new_count
          (set_guide_index (advance_index added g) g))).
Proof.
  unfold advance, advance_strokes, advance_counter, advance_index, threshold,
    fresh_snapshot.
  unfold_py. simpl.
  destruct (_ <=? _); simpl;
    destruct (snapshot_raises host); simpl;
    destruct (redraw_raises host); simpl; destruct g; reflexivity.
Qed.

Lemma advance_outcome (host : Host) (added new_count : Z) (g : Session) :
  outcome (advance host added new_count g) =
  if advance_raises host added g then Raise else Ret tt.
Proof.
  unfold advance, advance_raises, threshold. unfold_py. simpl.
  destruct (_ <=? _); simpl;
    destruct (snapshot_raises host); simpl;
    destruct (redraw_raises host); reflexivity.
Qed.

Arguments advance : simpl never.

Lemma watch_try_globals (host : Host) (g : Session) :
  globals (_watch_timer_try host g) = watch_globals host g.
Proof.
  unfold _watch_timer_try, watch_globals, lock_mode, release_mode, live_count,
    live_frame.
  unfold bind at 1. unfold raise at 1, ret at 1.
  destruct (context_raises host); simpl; [reflexivity|].
  unfold bind at 1. unfold get at 1. simpl.
  destruct (frame_changed _ _).
  - destruct (getattr _ _ && is_some _).
    + reflexivity.
    + unfold_py. simpl. destruct (redraw_raises host); reflexivity.
  - destruct (_pending_active g).
    + destruct (negb (_ =? _pending_target g)); [reflexivity|].
      destruct (negb (_ =? _pending_last_pointlen g)); [reflexivity|].
      destruct (Qle_bool _ _); [|reflexivity].
      destruct (0 <? _).
      * unfold bind at 1.
        pose proof (advance_outcome host
          (_pending_target g - _last_current_frame_count g)
          (_pending_target g) g) as Ho.
        destruct (advance host _ (_pending_target g) g) as [o g1 e1].
        simpl in Ho. subst o.
        destruct (advance_raises _ _ _); reflexivity.
      * reflexivity.
    + destruct (_ <? _).
      * destruct (getattr _ _); [reflexivity|].
        destruct (advance _ _ _ _); reflexivity.
      * destruct (_ <? _); [|reflexivity].
        unfold_py. simpl. destruct (redraw_raises host); reflexivity.
Qed.

Lemma poll_watch_globals (g : Session) (host : Host) :
  running g -> poll g host = watch_globals host g.
Proof.
  intros H. rewrite (poll_running g host H). apply watch_try_globals.
Qed.

Ltac break_if :=
  match goal with
  | |- context [if ?c then _ else _] =>
      lazymatch c with
      | context [if _ then _ else _] => fail
      | _ => destruct c eqn:?
      end
  end.

Ltac watch_cases :=
  unfold watch_globals; rewrite ?advance_globals; repeat break_if.

Lemma watch_globals_handle (host : Host) (g : Session) :
  _draw_handle (watch_globals host g) = _draw_handle g.
Proof. watch_cases; reflexivity. Qed.

Lemma watch_globals_timer_keep (host : Host) (g : Session) :
  _timer_keep (watch_globals host g) = _timer_keep g.
Proof. watch_cases; reflexivity. Qed.

Lemma poll_keeps_running (g : Session) (host : Host) :
  running g -> running (poll g host).
Proof.
  intros H. rewrite (poll_watch_globals g host H). destruct H as [Hk Hh].
  split.
  - rewrite watch_globals_timer_keep. exact Hk.
  - rewrite watch_globals_handle. exact Hh.
Qed.

Lemma poll_running_before (g : Session) (host : Host) :
  running (poll g host) -> running g.
Proof.
  intros [Hk Hh]. destruct (_timer_keep g) eqn:Ek.
  - destruct (_draw_handle g) eqn:Eh.
    + split; congruence.
    + rewrite (poll_no_handle g host Ek Eh) in Hk. discriminate.
  - rewrite (poll_stopped g host Ek) in Hk. congruence.
Qed.

Lemma run_polls_snoc (g : Session) (hosts : list Host) (host : Host) :
  run_polls g (hosts ++ [host]) = poll (run_polls g hosts) host.
Proof. unfold run_polls. rewrite fold_left_app. reflexivity. Qed.

(* ------------------------------------------------------------------ *)
(** ** Frame change under a locked monitored frame *)

(** C7. When the current frame differs from the monitored frame, the
    monitored frame is set and "lock monitored frame" is on, a poll of an
    active session writes only the last-seen stroke count, which becomes the
    stroke count of the current frame, and the pending flag, which is
    cleared: the monitored frame, the guide index, the cached strokes, the
    integrity counter and every other global keep their values. *)
Theorem lock_frame_resync (g : Session) (host : Host) (m : Z) :
  running g ->
  _monitored_frame g = Some m ->
  live_frame host <> m ->
  lock_mode host = true ->
  let g' := poll g host in
  (context_raises host = false ->
   _last_current_frame_count g' = live_count host /\
   _pending_active g' = false /\
   g' = set_pending_active false
          (set_last_current_frame_count (live_count host) g)) /\
  _monitored_frame g' = _monitored_frame g /\
  _guide_index g' = _guide_index g /\
  _guide_strokes_world g' = _guide_strokes_world g /\
  _advances_since_check g' = _advances_since_check g /\
  _draw_handle g' = _draw_handle g /\
  _timer_keep g' = _timer_keep g /\
  _pending_target g' = _pending_target g /\
  _pending_time g' = _pending_time g /\
  _pending_last_pointlen g' = _pending_last_pointlen g.
Proof.
  intros Hrun Hm Hf Hl g'. subst g'.
  rewrite (poll_watch_globals g host Hrun).
  unfold watch_globals. apply Z.eqb_neq in Hf.
  destruct (context_raises host).
  - split; [discriminate | repeat split; reflexivity].
  - rewrite Hl. unfold frame_changed. rewrite Hm, Hf. simpl.
    split; [intros _ | ]; repeat split; simpl; congruence.
Qed.

(* ------------------------------------------------------------------ *)
(** ** Exceptions during a poll *)

(** C8. A poll of an active session (timer kept, draw handler present)
    returns the reschedule interval of 0.12 s whatever the host raises
    during the iteration: the outcome is never an exception, and the session
    is still active afterwards, so the next poll runs again. *)
Theorem watch_timer_catches (g : Session) (host : Host) :
  _timer_keep g = true ->
  _draw_handle g <> None ->
  outcome (_watch_timer host g) = Ret (Some poll_interval) /\
  poll_interval = 12 # 100 /\
  running (globals (_watch_timer host g)).
Proof.
  intros Hk Hh. split; [|split].
  - unfold _watch_timer. unfold_py. simpl. rewrite Hk.
    destruct (_draw_handle g); [|congruence]. simpl.
    destruct (_watch_timer_try host g) as [[u|] g1 e1]; reflexivity.
  - reflexivity.
  - apply (poll_keeps_running g host). split; assumption.
Qed.

(* ------------------------------------------------------------------ *)
(** ** The stop operator *)

Lemma stop_globals (host : Host) (g : Session) :
  globals (GP_OT_GuideStop_execute host g) =
  set_pending_active false
    (set_monitored_frame None
       (set_guide_strokes_world []
          (set_timer_keep false (set_draw_handle None g)))).
Proof.
  unfold GP_OT_GuideStop_execute. unfold_py. simpl.
  destruct (_draw_handle g) eqn:Eh; simpl.
  - destruct (handler_remove_raises host); simpl;
      destruct (redraw_raises host); reflexivity.
  - destruct (redraw_raises host); simpl;
      destruct g; simpl in *; subst; reflexivity.
Qed.

(** C9. Stop is idempotent on the module state: after one stop the draw
    handler is absent, the keep-running flag and the pending flag are
    cleared, the stroke list is empty and the monitored frame is unset, and
    a second stop, whatever the host does during it, leaves every global as
    the first stop left it. *)
Theorem stop_idempotent (g : Session) (host1 host2 : Host) :
  let g1 := globals (GP_OT_GuideStop_execute host1 g) in
  let g2 := globals (GP_OT_GuideStop_execute host2 g1) in
  g2 = g1 /\
  _draw_handle g1 = None /\
  _timer_keep g1 = false /\
  _guide_strokes_world g1 = [] /\
  _monitored_frame g1 = None /\
  _pending_active g1 = false.
Proof.
  intros g1 g2. subst g2 g1. rewrite !stop_globals.
  repeat split; reflexivity.
Qed.

(* ------------------------------------------------------------------ *)
(** ** The draw handler *)

Lemma len_nonneg {A} (l : list A) : 0 <= len l.
Proof. unfold len. lia. Qed.

Lemma len_pos {A} (l : list A) : l <> [] -> 0 < len l.
Proof. destruct l; [congruence|]. unfold len. simpl. lia. Qed.

Lemma py_getitem_in_range {A} (l : list A) (i : Z) :
  0 <= i < len l ->
  py_getitem l i = nth_error l (Z.to_nat i) /\
  exists x, nth_error l (Z.to_nat i) = Some x.
Proof.
  intros [H0 H1]. unfold py_getitem.
  apply Z.leb_le in H0 as E0. apply Z.ltb_lt in H1 as E1.
  rewrite E0, E1. simpl. split; [reflexivity|].
  destruct (nth_error l (Z.to_nat i)) eqn:E; [eauto|].
  apply nth_error_None in E. unfold len in H1. lia.
Qed.

(** C10. Whatever the guide index is, also negative or at or past the
    length of the list, [draw_guides] subscripts the cached list only at
    [max(0, min(index, len-1))]; with a non-empty list that position is
    within [0, len), so the subscript yields a stroke and raises nothing,
    and with an empty list the handler returns without drawing. The handler
    never changes a global and never raises. *)
Theorem draw_guides_in_bounds (g : Session) (host : Host) :
  (_guide_strokes_world g = [] ->
   draw_guides host g = {| outcome := Ret tt; globals := g; effects := [] |}) /\
  (_guide_strokes_world g <> [] ->
   0 <= draw_index g < len (_guide_strokes_world g) /\
   draw_index g = Z.max 0 (Z.min (_guide_index g)
                                 (len (_guide_strokes_world g) - 1)) /\
   exists stroke_world,
     py_getitem (_guide_strokes_world g) (draw_index g) = Some stroke_world /\
     nth_error (_guide_strokes_world g) (Z.to_nat (draw_index g))
       = Some stroke_world /\
     (region (context host) && region_data (context host) = true ->
      paint_raises host = false ->
      draw_guides host g =
      {| outcome := Ret tt; globals := g;
         effects := [Paint stroke_world] |})) /\
  outcome (draw_guides host g) = Ret tt /\
  globals (draw_guides host g) = g.
Proof.
  split; [|split].
  - intros E. unfold draw_guides. unfold_py. simpl. rewrite E. reflexivity.
  - intros Hne. pose proof (len_pos _ Hne) as Hpos.
    assert (Hr : 0 <= draw_index g < len (_guide_strokes_world g))
      by (unfold draw_index; lia).
    split; [exact Hr|]. split; [reflexivity|].
    destruct (py_getitem_in_range _ _ Hr) as [Eg [x Ex]].
    exists x. split; [congruence|]. split; [exact Ex|].
    intros Hreg Hp. apply andb_true_iff in Hreg as [R1 R2].
    unfold draw_guides. unfold_py. simpl.
    destruct (_guide_strokes_world g) eqn:El; [congruence|].
    rewrite R1, R2, Eg, Ex, Hp. reflexivity.
  - unfold draw_guides. unfold_py. simpl.
    destruct (_guide_strokes_world g) eqn:El; [split; reflexivity|].
    destruct (negb (region (context host)) || negb (region_data (context host)));
      [split; reflexivity|].
    destruct (py_getitem _ _); simpl.
    + destruct (paint_raises host); split; reflexivity.
    + split; reflexivity.
Qed.

(* ------------------------------------------------------------------ *)
(** ** Advances *)

Lemma Qle_bool_false (x y : Q) : (y < x)%Q -> Qle_bool x y = false.
Proof.
  intros H. destruct (Qle_bool x y) eqn:E; [|reflexivity].
  apply Qle_bool_iff in E. exfalso. exact (Qlt_not_le _ _ H E).
Qed.

Lemma Qle_bool_false_lt (x y : Q) : Qle_bool x y = false -> (y < x)%Q.
Proof.
  intros E. apply Qnot_le_lt. intros H. apply Qle_bool_iff in H. congruence.
Qed.

(** The globals an advance writes. *)
Lemma advances_globals (g : Session) (host : Host) (added : Z) :
  advances g host added ->
  let g' := poll g host in
  _guide_index g' = advance_index added g /\
  _last_current_frame_count g' = live_count host /\
  _advances_since_check g' = advance_counter host added g /\
  _guide_strokes_world g' = advance_strokes host added g /\
  _monitored_frame g' = _monitored_frame g.
Proof.
  intros (Hrun & Hc & Hf & Hadd & Hcase) g'. subst g'.
  rewrite (poll_watch_globals g host Hrun). unfold watch_globals.
  rewrite Hc, (frame_changed_same g host Hf), (monitored_pointlen_same g host Hf).
  destruct Hcase as [(Hp & Hr & Ha) | (Hp & Hn & Hl & Hd & Ha)].
  - rewrite Hp, Hr.
    assert (E : (_last_current_frame_count g <? live_count host) = true)
      by (apply Z.ltb_lt; lia).
    rewrite E, <- Ha, advance_globals. simpl. repeat split; reflexivity.
  - rewrite Hp, Hn, Hl, !Z.eqb_refl. cbn [negb].
    apply Qle_bool_iff in Hd. rewrite Hd, <- Ha.
    assert (E : (0 <? added) = true) by (apply Z.ltb_lt; lia).
    rewrite E. cbv zeta. rewrite advance_globals.
    destruct (advance_raises host added g); simpl; repeat split; reflexivity.
Qed.

(** A poll that changes the integrity counter or the cached strokes is an
    advance. *)
Lemma only_advances_touch_cache (g : Session) (host : Host) :
  let g' := poll g host in
  _advances_since_check g' <> _advances_since_check g \/
  _guide_strokes_world g' <> _guide_strokes_world g ->
  exists added, advances g host added.
Proof.
  intros g' H. subst g'.
  destruct (_timer_keep g) eqn:Ek;
    [|rewrite (poll_stopped g host Ek) in H; destruct H; congruence].
  destruct (_draw_handle g) eqn:Eh;
    [|rewrite (poll_no_handle g host Ek Eh) in H; simpl in H;
      destruct H; congruence].
  assert (Hrun : running g) by (split; congruence).
  rewrite (poll_watch_globals g host Hrun) in H.
  unfold watch_globals in H.
  destruct (context_raises host) eqn:Hc; [destruct H; congruence|].
  destruct (frame_changed _ _) eqn:Hf.
  { destruct (lock_mode host && is_some _); simpl in H; destruct H; congruence. }
  apply frame_changed_false in Hf.
  rewrite (monitored_pointlen_same g host Hf) in H.
  destruct (_pending_active g) eqn:Hp.
  - destruct (negb (_ =? _pending_target g)) eqn:Hn;
      [simpl in H; destruct H; congruence|].
    destruct (negb (_ =? _pending_last_pointlen g)) eqn:Hl;
      [simpl in H; destruct H; congruence|].
    destruct (Qle_bool _ _) eqn:Hd; [|destruct H; congruence].
    destruct (0 <? _) eqn:Ha; [|simpl in H; destruct H; congruence].
    exists (_pending_target g - _last_current_frame_count g).
    apply negb_false_iff, Z.eqb_eq in Hn, Hl.
    apply Z.ltb_lt in Ha. apply Qle_bool_iff in Hd.
    split; [exact Hrun|]. split; [exact Hc|]. split; [exact Hf|].
    split; [exact Ha|]. right. repeat split; assumption.
  - destruct (_ <? live_count host) eqn:Ha.
    + destruct (release_mode host) eqn:Hr; [simpl in H; destruct H; congruence|].
      exists (live_count host - _last_current_frame_count g).
      apply Z.ltb_lt in Ha.
      split; [exact Hrun|]. split; [exact Hc|]. split; [exact Hf|].
      split; [lia|]. left. repeat split; assumption.
    + destruct (live_count host <? _); simpl in H; destruct H; congruence.
Qed.

(** C4, as amended. On every watcher advance, immediate or by resolution
    of a pending commit, with [added] strictly positive, the new guide index
    is [min(old index + added, max(0, len(strokes)-1))], where [strokes] is
    the cached list before the poll; with a non-empty list this is
    [min(old index + added, len(strokes)-1)]. The last-seen stroke count
    becomes the new count, which is the old last-seen count plus [added]. *)
Theorem advance_index_clamped (g : Session) (host : Host) (added : Z) :
  advances g host added ->
  let g' := poll g host in
  _guide_index g' =
    Z.min (_guide_index g + added)
          (Z.max 0 (len (_guide_strokes_world g) - 1)) /\
  (_guide_strokes_world g <> [] ->
   _guide_index g' =
     Z.min (_guide_index g + added) (len (_guide_strokes_world g) - 1)) /\
  _last_current_frame_count g' = live_count host /\
  live_count host = _last_current_frame_count g + added.
Proof.
  intros Hadv g'.
  destruct (advances_globals g host added Hadv) as (Hi & Hl & _).
  fold g' in Hi, Hl. unfold advance_index in Hi.
  split; [exact Hi|]. split; [|split; [exact Hl|]].
  - intros Hne. pose proof (len_pos _ Hne). rewrite Hi. lia.
  - destruct Hadv as (_ & _ & _ & _ & [(_ & _ & Ha) | (_ & Hn & _ & _ & Ha)]);
      lia.
Qed.

(* ------------------------------------------------------------------ *)
(** ** The integrity counter *)

Lemma counter_bounds_step (T : Z) (g : Session) (host : Host) :
  1 <= T -> threshold host = T ->
  0 <= _advances_since_check g < T ->
  0 <= _advances_since_check (poll g host) < T.
Proof.
  intros HT Hth Hc.
  destruct (Z.eq_dec (_advances_since_check (poll g host))
                     (_advances_since_check g)) as [E | E];
    [rewrite E; exact Hc|].
  destruct (only_advances_touch_cache g host (or_introl E)) as [added Hadv].
  destruct (advances_globals g host added Hadv) as (_ & _ & Hcnt & _).
  rewrite Hcnt. unfold advance_counter. rewrite Hth.
  destruct Hadv as (_ & _ & _ & Hpos & _).
  destruct (T <=? _) eqn:Et; [lia|]. apply Z.leb_gt in Et. lia.
Qed.

Lemma counter_bounds_run (T : Z) (hosts : list Host) : forall g : Session,
  1 <= T -> Forall (fun h => threshold h = T) hosts ->
  0 <= _advances_since_check g < T ->
  0 <= _advances_since_check (run_polls g hosts) < T.
Proof.
  induction hosts as [|h hosts IH]; intros g HT Hall Hc; [exact Hc|].
  pose proof (Forall_inv Hall) as Hh. pose proof (Forall_inv_tail Hall) as Hrest.
  simpl. apply IH; [exact HT | exact Hrest |].
  apply counter_bounds_step; assumption.
Qed.

(** C2, as amended. On every advance the counter grows by [added] and is
    reset to zero exactly when the sum reaches the interval configured at
    that poll; a poll replaces the cached strokes only in such an advance,
    where the list becomes the fresh snapshot and the counter is zero. Along
    a run of polls that all read the same interval [T], at least 1, from a
    state with the counter in [0, T), the counter is strictly below [T]
    after every poll. *)
Theorem integrity_counter_reset
    (T : Z) (g : Session) (hosts : list Host) (host : Host) :
  let g1 := run_polls g hosts in
  let g2 := poll g1 host in
  (forall added, advances g1 host added ->
     _advances_since_check g2 =
       (if threshold host <=? _advances_since_check g1 + added then 0
        else _advances_since_check g1 + added) /\
     (0 <= _advances_since_check g1 ->
      (_advances_since_check g2 = 0 <->
       threshold host <= _advances_since_check g1 + added))) /\
  (_guide_strokes_world g2 <> _guide_strokes_world g1 ->
   exists added,
     advances g1 host added /\
     threshold host <= _advances_since_check g1 + added /\
     _advances_since_check g2 = 0 /\
     _guide_strokes_world g2 = fresh_snapshot host) /\
  (1 <= T ->
   0 <= _advances_since_check g < T ->
   Forall (fun h => threshold h = T) (hosts ++ [host]) ->
   0 <= _advances_since_check g2 < T).
Proof.
  intros g1 g2. split; [|split].
  - intros added Hadv.
    destruct (advances_globals g1 host added Hadv) as (_ & _ & Hcnt & _).
    fold g2 in Hcnt. unfold advance_counter in Hcnt.
    destruct Hadv as (_ & _ & _ & Hpos & _).
    split; [exact Hcnt|]. intros Hc1. rewrite Hcnt.
    destruct (_ <=? _) eqn:Et.
    + apply Z.leb_le in Et. split; [intros _; exact Et | reflexivity].
    + apply Z.leb_gt in Et. split; lia.
  - intros Hne.
    destruct (only_advances_touch_cache g1 host (or_intror Hne)) as [added Hadv].
    exists added. split; [exact Hadv|].
    destruct (advances_globals g1 host added Hadv) as (_ & _ & Hcnt & Hs & _).
    fold g2 in Hcnt, Hs. unfold advance_counter in Hcnt.
    unfold advance_strokes in Hs.
    destruct (_ <=? _) eqn:Et; [|simpl in Hs; congruence].
    destruct (snapshot_raises host); simpl in Hs; [congruence|].
    apply Z.leb_le in Et. repeat split; assumption.
  - intros HT Hc Hall.
    apply Forall_app in Hall as [Hhosts Hhost].
    pose proof (Forall_inv Hhost) as Hth. simpl in Hth.
    pose proof (counter_bounds_run _ hosts g HT Hhosts Hc) as Hc1.
    fold g1 in Hc1.
    apply counter_bounds_step; assumption.
Qed.

(* ------------------------------------------------------------------ *)
(** ** Removal of strokes *)

(** C6, as amended. On a poll of an active session that runs on the
    monitored frame with no pending commit active and sees fewer strokes
    than last seen, whatever the advance-on-release mode: the pending flag
    stays cleared, the last-seen count becomes the live count at once, and
    the guide index becomes [min(live_count, len(strokes)-1)] when the
    cached list is non-empty (0 when it is empty). The pending target, time
    and point count, the cached strokes and the counter are not written. *)
Theorem removal_resync (g : Session) (host : Host) :
  running g ->
  context_raises host = false ->
  same_frame g host ->
  _pending_active g = false ->
  live_count host < _last_current_frame_count g ->
  let g' := poll g host in
  _pending_active g' = false /\
  _last_current_frame_count g' = live_count host /\
  (_guide_strokes_world g <> [] ->
   _guide_index g' =
     Z.min (live_count host) (len (_guide_strokes_world g) - 1)) /\
  (_guide_strokes_world g = [] -> _guide_index g' = 0) /\
  _pending_target g' = _pending_target g /\
  _pending_time g' = _pending_time g /\
  _pending_last_pointlen g' = _pending_last_pointlen g /\
  _guide_strokes_world g' = _guide_strokes_world g /\
  _advances_since_check g' = _advances_since_check g /\
  _monitored_frame g' = _monitored_frame g.
Proof.
  intros Hrun Hc Hf Hp Hlt g'. subst g'.
  rewrite (poll_watch_globals g host Hrun). unfold watch_globals.
  rewrite Hc, (frame_changed_same g host Hf), Hp.
  assert (E1 : (_last_current_frame_count g <? live_count host) = false)
    by (apply Z.ltb_ge; lia).
  assert (E2 : (live_count host <? _last_current_frame_count g) = true)
    by (apply Z.ltb_lt; lia).
  rewrite E1, E2. cbv zeta. unfold resync_index. simpl.
  repeat split; try reflexivity.
  - intros Hne. pose proof (len_pos _ Hne).
    destruct (_guide_strokes_world g); [congruence|]. lia.
  - intros ->. reflexivity.
Qed.

(* ------------------------------------------------------------------ *)
(** ** Advance on release: the debounce *)

(** From a pending state on the monitored frame, the guide index changes
    only in a commit: count and point count as recorded, debounce elapsed. *)
Lemma commit_only_when_stable (g : Session) (host : Host) :
  _pending_active g = true ->
  same_frame g host ->
  _guide_index (poll g host) <> _guide_index g ->
  running g /\ context_raises host = false /\
  live_count host = _pending_target g /\
  live_pointlen host = _pending_last_pointlen g /\
  (_debounce_seconds <= time_time host - _pending_time g)%Q.
Proof.
  intros Hp Hf H.
  destruct (_timer_keep g) eqn:Ek;
    [|rewrite (poll_stopped g host Ek) in H; congruence].
  destruct (_draw_handle g) eqn:Eh;
    [|rewrite (poll_no_handle g host Ek Eh) in H; simpl in H; congruence].
  assert (Hrun : running g) by (split; congruence).
  rewrite (poll_watch_globals g host Hrun) in H. unfold watch_globals in H.
  rewrite (frame_changed_same g host Hf), (monitored_pointlen_same g host Hf),
    Hp in H.
  destruct (context_raises host); [congruence|].
  destruct (negb (_ =? _pending_target g)) eqn:Hn; [simpl in H; congruence|].
  destruct (negb (_ =? _pending_last_pointlen g)) eqn:Hl;
    [simpl in H; congruence|].
  destruct (Qle_bool _ _) eqn:Hd; [|congruence].
  apply negb_false_iff, Z.eqb_eq in Hn, Hl. apply Qle_bool_iff in Hd.
  split; [exact Hrun|]. repeat split; assumption || reflexivity.
Qed.

(** Where the pending sub-state of the globals after a poll comes from:
    recorded by this poll, or kept from before through a poll that saw no
    change (or read nothing). *)
Lemma pending_after_poll (g : Session) (host : Host) :
  let g' := poll g host in
  running g ->
  _pending_active g' = true ->
  (context_raises host = false /\ same_frame g host /\
   _monitored_frame g' = _monitored_frame g /\
   _pending_target g' = live_count host /\
   _pending_last_pointlen g' = live_pointlen host /\
   _pending_time g' = time_time host)
  \/
  (_pending_active g = true /\
   _monitored_frame g' = _monitored_frame g /\
   _pending_target g' = _pending_target g /\
   _pending_last_pointlen g' = _pending_last_pointlen g /\
   _pending_time g' = _pending_time g /\
   (context_raises host = true \/
    (same_frame g host /\
     live_count host = _pending_target g /\
     live_pointlen host = _pending_last_pointlen g))).
Proof.
  intros g' Hrun H. subst g'.
  rewrite (poll_watch_globals g host Hrun) in *. unfold watch_globals in *.
  destruct (context_raises host) eqn:Hc.
  { right. repeat split; auto. }
  destruct (frame_changed _ _) eqn:Hf.
  { destruct (lock_mode host && is_some _); simpl in H; discriminate. }
  apply frame_changed_false in Hf.
  rewrite (monitored_pointlen_same g host Hf) in *.
  destruct (_pending_active g) eqn:Hp.
  - destruct (negb (_ =? _pending_target g)) eqn:Hn.
    { left. repeat split; auto. }
    apply negb_false_iff, Z.eqb_eq in Hn.
    destruct (negb (_ =? _pending_last_pointlen g)) eqn:Hl.
    { left. repeat split; auto. }
    apply negb_false_iff, Z.eqb_eq in Hl.
    destruct (Qle_bool _ _) eqn:Hd.
    + destruct (0 <? _) eqn:Ha; [|simpl in H; discriminate].
      cbv zeta in *. rewrite advance_globals in *.
      destruct (advance_raises _ _ _); [|simpl in H; discriminate].
      right. simpl. repeat split; auto.
    + right. repeat split; auto.
  - destruct (_ <? live_count host) eqn:Ha.
    + destruct (release_mode host) eqn:Hr.
      * left. repeat split; auto.
      * rewrite advance_globals in H. simpl in H. congruence.
    + destruct (live_count host <? _); simpl in H; congruence.
Qed.

Lemma pending_origin_run (g0 : Session) (hosts : list Host) :
  _pending_active g0 = false ->
  running (run_polls g0 hosts) ->
  _pending_active (run_polls g0 hosts) = true ->
  pending_origin hosts (run_polls g0 hosts).
Proof.
  intros H0. induction hosts as [|h hosts IH] using rev_ind.
  - simpl. congruence.
  - rewrite run_polls_snoc. intros Hrun Hp.
    apply poll_running_before in Hrun as Hrun1.
    destruct (pending_after_poll _ h Hrun1 Hp)
      as [(Hc & Hf & Hm & Ht & Hl & Htime)
         | (Hp1 & Hm & Ht & Hl & Htime & Hobs)].
    + exists hosts, h, []. repeat split; try assumption.
      * rewrite Hm. exact Hf.
      * constructor.
    + destruct (IH Hrun1 Hp1)
        as (pre & e0 & later & -> & Hc0 & Hm0 & Ht0 & Hl0 & Htime0 & Hst).
      exists pre, e0, (later ++ [h]). repeat split; try congruence.
      * rewrite <- app_assoc. reflexivity.
      * apply Forall_app. split; [exact Hst|]. constructor; [|constructor].
        destruct Hobs as [Hr | (Hf & Hcnt & Hlen)]; [left; exact Hr|].
        right. unfold same_frame in Hf. repeat split; congruence.
Qed.

(** C5. Polls on the monitored frame, in a run of the watcher that began
    with no commit pending. In advance-on-release mode a poll that sees new
    strokes leaves the guide index alone. While a commit is pending, a poll
    that sees the recorded stroke count but another point count of the last
    stroke leaves the index alone and restarts the debounce timer, and so
    does a poll made less than the debounce interval after the time stamp of
    the last observed change. A poll that changes the index while a commit
    is pending comes at least the debounce interval after an earlier poll
    [e0] of the run, and every poll since [e0] that read the document, this
    one included, saw the frame, the stroke count and the last stroke's
    point count that [e0] saw. *)
Theorem release_mode_debounce
    (g0 : Session) (hosts : list Host) (host : Host) :
  _pending_active g0 = false ->
  let g := run_polls g0 hosts in
  let g' := poll g host in
  same_frame g host ->
  (_pending_active g = false -> release_mode host = true ->
   _last_current_frame_count g <= live_count host ->
   _guide_index g' = _guide_index g) /\
  (_pending_active g = true ->
   live_count host = _pending_target g ->
   live_pointlen host <> _pending_last_pointlen g ->
   _guide_index g' = _guide_index g /\
   (running g -> context_raises host = false ->
    _pending_active g' = true /\
    _pending_time g' = time_time host /\
    _pending_last_pointlen g' = live_pointlen host)) /\
  (_pending_active g = true ->
   (time_time host - _pending_time g < _debounce_seconds)%Q ->
   _guide_index g' = _guide_index g) /\
  (_pending_active g = true ->
   _guide_index g' <> _guide_index g ->
   exists pre e0 later,
     hosts = pre ++ e0 :: later /\
     context_raises e0 = false /\
     context_raises host = false /\
     stable_since e0 (later ++ [host]) /\
     (_debounce_seconds <= time_time host - time_time e0)%Q).
Proof.
  intros H0 g g' Hf. split; [|split; [|split]].
  - intros Hp Hr Hle. subst g'.
    destruct (_timer_keep g) eqn:Ek;
      [|rewrite (poll_stopped g host Ek); reflexivity].
    destruct (_draw_handle g) eqn:Eh;
      [|rewrite (poll_no_handle g host Ek Eh); reflexivity].
    assert (Hrun : running g) by (split; congruence).
    rewrite (poll_watch_globals g host Hrun). unfold watch_globals.
    rewrite (frame_changed_same g host Hf), Hp, Hr.
    assert (E : (live_count host <? _last_current_frame_count g) = false)
      by (apply Z.ltb_ge; lia).
    rewrite E. destruct (context_raises host); [reflexivity|].
    destruct (_last_current_frame_count g <? live_count host); reflexivity.
  - intros Hp Hcnt Hlen. split.
    + destruct (Z.eq_dec (_guide_index g') (_guide_index g)) as [E | E];
        [exact E|].
      destruct (commit_only_when_stable g host Hp Hf E) as (_ & _ & _ & Hl & _).
      contradiction.
    + intros Hrun Hc. subst g'.
      rewrite (poll_watch_globals g host Hrun). unfold watch_globals.
      rewrite Hc, (frame_changed_same g host Hf),
        (monitored_pointlen_same g host Hf), Hp, Hcnt, Z.eqb_refl.
      apply Z.eqb_neq in Hlen. rewrite Hlen. simpl.
      repeat split; assumption || reflexivity.
  - intros Hp Hearly.
    destruct (Z.eq_dec (_guide_index g') (_guide_index g)) as [E | E];
      [exact E|].
    destruct (commit_only_when_stable g host Hp Hf E) as (_ & _ & _ & _ & Hd).
    exfalso. exact (Qlt_not_le _ _ Hearly Hd).
  - intros Hp Hchg.
    destruct (commit_only_when_stable g host Hp Hf Hchg)
      as (Hrun & Hc & Hcnt & Hlen & Hd).
    destruct (pending_origin_run g0 hosts H0 Hrun Hp)
      as (pre & e0 & later & Eh & Hc0 & Hm0 & Ht0 & Hl0 & Htime0 & Hst).
    fold g in Hm0, Ht0, Hl0, Htime0.
    exists pre, e0, later. split; [exact Eh|]. split; [exact Hc0|].
    split; [exact Hc|]. split.
    + apply Forall_app. split; [exact Hst|]. constructor; [|constructor].
      right. unfold same_frame in Hf. repeat split; congruence.
    + rewrite <- Htime0. exact Hd.
Qed.

(* ------------------------------------------------------------------ *)
(** ** The range of the guide index *)

Lemma get_frame_stroke_count_nonneg (context : Context) (n : Z) :
  0 <= get_frame_stroke_count context n.
Proof.
  unfold get_frame_stroke_count.
  destruct (get_active_gp context); [|lia].
  destruct (layers _); [lia|]. destruct (layers_active _); [|lia].
  destruct (lookup_frame _ _); [|lia]. destruct (drawing _); [|lia].
  apply len_nonneg.
Qed.

Lemma resync_index_in_range (count : Z) (g : Session) :
  0 <= count ->
  0 <= resync_index count g /\
  (_guide_strokes_world g <> [] ->
   resync_index count g < len (_guide_strokes_world g)).
Proof.
  intros Hc. unfold resync_index.
  destruct (_guide_strokes_world g) eqn:E.
  - split; [lia|congruence].
  - assert (0 < len (s :: l)) by (apply len_pos; congruence). lia.
Qed.

(** A poll keeps the guide index in range unless an integrity check
    replaces the cached strokes by a shorter, non-empty list. *)
Lemma index_in_range_unless_shrunk (g : Session) (host : Host) :
  index_in_range g ->
  _guide_strokes_world (poll g host) = [] \/
  len (_guide_strokes_world g) <= len (_guide_strokes_world (poll g host)) ->
  index_in_range (poll g host).
Proof.
  intros [Hi0 Hi1] Hlen.
  destruct (_timer_keep g) eqn:Ek;
    [|rewrite (poll_stopped g host Ek); split; assumption].
  destruct (_draw_handle g) eqn:Eh;
    [|rewrite (poll_no_handle g host Ek Eh); split; assumption].
  assert (Hrun : running g) by (split; congruence).
  assert (Hadv : forall added new_count g1,
    0 < added ->
    g1 = globals (advance host added new_count g) ->
    _guide_strokes_world g1 = [] \/
    len (_guide_strokes_world g) <= len (_guide_strokes_world g1) ->
    0 <= _guide_index g1 /\
    (_guide_strokes_world g1 <> [] ->
     _guide_index g1 < len (_guide_strokes_world g1))).
  { intros added n g1 Hpos -> H. rewrite advance_globals in *. simpl in *.
    unfold advance_index. pose proof (len_nonneg (_guide_strokes_world g)).
    split; [lia|]. intros Hne. destruct H as [H | H]; [congruence|].
    pose proof (len_pos _ Hne).
    destruct (_guide_strokes_world g) eqn:E; [unfold len in *; simpl in *; lia|].
    assert (_guide_index g < len (s :: l)) by (apply Hi1; congruence). lia. }
  pose proof (get_frame_stroke_count_nonneg (context host) (live_frame host))
    as Hcount. fold (live_count host) in Hcount.
  rewrite (poll_watch_globals g host Hrun) in *. unfold watch_globals in *.
  destruct (context_raises host); [split; assumption|].
  destruct (frame_changed _ _).
  { destruct (lock_mode host && is_some _); [split; assumption|].
    cbv zeta. unfold index_in_range. simpl.
    exact (resync_index_in_range (live_count host) _ Hcount). }
  destruct (_pending_active g).
  - destruct (negb (_ =? _pending_target g)); [split; assumption|].
    destruct (negb (_ =? _pending_last_pointlen g)); [split; assumption|].
    destruct (Qle_bool _ _); [|split; assumption].
    destruct (0 <? _) eqn:Ha; [|split; assumption].
    apply Z.ltb_lt in Ha. cbv zeta in *.
    destruct (advance_raises _ _ _).
    + eapply Hadv; [exact Ha | reflexivity | exact Hlen].
    + unfold index_in_range.
      cbn [set_pending_active _guide_strokes_world _guide_index] in *.
      eapply Hadv; [exact Ha | reflexivity | exact Hlen].
  - destruct (_ <? live_count host) eqn:Ha.
    + destruct (release_mode host); [split; assumption|].
      apply Z.ltb_lt in Ha.
      eapply Hadv; [|reflexivity | exact Hlen]. lia.
    + destruct (live_count host <? _); [|split; assumption].
      cbv zeta. unfold index_in_range. simpl.
      exact (resync_index_in_range (live_count host) _ Hcount).
Qed.

(* ------------------------------------------------------------------ *)
(** ** Failures of the start operator *)

(** C3, as amended. The start operator returns CANCELLED in three cases
    and in no other. With no active Grease Pencil object, or with no stroke
    found on a previous frame, it reports a warning and leaves every global
    as it was. When the draw handler cannot be installed it reports an
    error, the draw handle is [None] afterwards as before, and the
    keep-running flag is not written. *)
Theorem start_failure_effects (g : Session) (host : Host) :
  let r := GP_OT_GuideStart_execute host g in
  (get_active_gp (context host) = None ->
   r = {| outcome := Ret CANCELLED; globals := g;
          effects := [Report WARNING MsgSelectGreasePencil] |}) /\
  (get_active_gp (context host) <> None ->
   snapshot_raises host = false ->
   fresh_snapshot host = [] ->
   r = {| outcome := Ret CANCELLED; globals := g;
          effects := [Report WARNING MsgNoStrokes] |}) /\
  (get_active_gp (context host) <> None ->
   snapshot_raises host = false ->
   fresh_snapshot host <> [] ->
   _draw_handle g = None ->
   handler_add host = None ->
   outcome r = Ret CANCELLED /\
   effects r = [Debug "handler add failed"; Report ERROR MsgHandlerFailed] /\
   _draw_handle (globals r) = None /\
   _timer_keep (globals r) = _timer_keep g) /\
  (outcome r = Ret CANCELLED ->
   get_active_gp (context host) = None \/
   (snapshot_raises host = false /\ fresh_snapshot host = []) \/
   (snapshot_raises host = false /\ fresh_snapshot host <> [] /\
    _draw_handle g = None /\ handler_add host = None)).
Proof.
  intros r. subst r. unfold GP_OT_GuideStart_execute, fresh_snapshot.
  destruct (get_active_gp (context host)) as [obj|].
  2:{ repeat split; try congruence. intros _. left. reflexivity. }
  unfold_py. simpl.
  destruct (snapshot_raises host); simpl.
  { repeat split; try congruence. }
  destruct (get_previous_frame_strokes_world (context host)) as [|s0 strokes];
    simpl.
  { repeat split; try congruence. intros _. right. left. split; reflexivity. }
  destruct (_draw_handle g) eqn:Eh; simpl.
  { destruct (redraw_raises host); simpl; repeat split; congruence. }
  destruct (handler_add host); simpl.
  { destruct (redraw_raises host); simpl; repeat split; congruence. }
  repeat split; try congruence.
  intros _. right. right. repeat split; congruence.
Qed.

(** The first scenario of the specification: three guide strokes, an empty
    monitored frame; the index goes 0, 1, 2 and stays at 2. *)
Example scenario_clamped_advance :
  _guide_index Scenario.started = 0 /\
  _guide_index (run_polls Scenario.started [Scenario.draws [2] 1]) = 1 /\
  _guide_index (run_polls Scenario.started
                  [Scenario.draws [2] 1; Scenario.draws [2; 2] 2]) = 2 /\
  _guide_index (run_polls Scenario.started
                  [Scenario.draws [2] 1; Scenario.draws [2; 2] 2;
                   Scenario.draws [2; 2; 2] 3]) = 2.
Proof. repeat split; reflexivity. Qed.

(** The third scenario: with interval 3, the third single-stroke advance
    replaces the cache by a fresh snapshot and zeroes the counter. *)
Example scenario_integrity_interval :
  let source' := Scenario.source_strokes ++ [[Scenario.pt 9; Scenario.pt 9]] in
  let third := Scenario.host_of
    (Scenario.context_of 2 (Some source') [2; 2; 2] Scenario.immediate) 3 in
  let g2 := run_polls Scenario.started
              [Scenario.draws [2] 1; Scenario.draws [2; 2] 2] in
  _advances_since_check g2 = 2 /\
  _guide_strokes_world g2 = Scenario.source_strokes /\
  _advances_since_check (poll g2 third) = 0 /\
  _guide_strokes_world (poll g2 third) = source'.
Proof. repeat split; reflexivity. Qed.

(** The second scenario: advance on release with a debounce of 0.35 s. The
    stroke count goes 0 to 1, the point count grows twice, 0.1 s apart: no
    commit. Once the point count has stopped changing for 0.35 s, the commit
    advances the index by one. *)
Example scenario_release_commit :
  let growing := [Scenario.sees [3] 1; Scenario.sees [5] (11 # 10);
                  Scenario.sees [8] (12 # 10)] in
  let g := run_polls Scenario.started growing in
  _guide_index g = 0 /\ _pending_active g = true /\
  _guide_index (poll g (Scenario.sees [8] (15 # 10))) = 0 /\
  _guide_index (poll g (Scenario.sees [8] (155 # 100))) = 1 /\
  _pending_active (poll g (Scenario.sees [8] (155 # 100))) = false.
Proof. repeat split; reflexivity. Qed.

(* ------------------------------------------------------------------ *)
(** ** The guide index after an integrity check *)

(** C1. A run on which the invariant breaks. The session starts with
    three guide strokes; two strokes are drawn (index 2, counter 2); on a
    visit to frame 1 two source strokes are deleted; back on frame 2 the
    index is re-baselined to 2 against the cached three strokes. The third
    stroke makes the counter reach the interval 3: the index is clamped
    against the old list and the list is then replaced by the one remaining
    source stroke, so the list is non-empty and the index 2 is past its
    end. *)
Theorem resnapshot_leaves_index_out_of_range :
  running (run_polls Scenario.started Scenario.edit_source_after_two) /\
  index_in_range (run_polls Scenario.started Scenario.edit_source_after_two) /\
  _guide_strokes_world
    (poll (run_polls Scenario.started Scenario.edit_source_after_two)
          Scenario.third_stroke_after_edit) = Scenario.edited_source /\
  _guide_index
    (poll (run_polls Scenario.started Scenario.edit_source_after_two)
          Scenario.third_stroke_after_edit) = 2 /\
  ~ index_in_range
      (poll (run_polls Scenario.started Scenario.edit_source_after_two)
            Scenario.third_stroke_after_edit).
Proof.
  split; [split; [reflexivity | discriminate]|].
  split; [split; [discriminate | intros _; reflexivity]|].
  split; [reflexivity|]. split; [reflexivity|].
  intros [_ H]. assert (Hne : Scenario.edited_source <> @nil Stroke)
    by discriminate.
  specialize (H Hne). vm_compute in H. discriminate.
Qed.

(* ------------------------------------------------------------------ *)
(** ** Counterexamples to the claims as first stated *)

(** C2 as stated fails when the interval is lowered during a session:
    after two advances under interval 3 the counter is 2; with the interval
    set to 2, a poll that sees no new stroke leaves the counter at 2, not
    below the threshold. *)
Lemma lowered_interval_leaves_counter_at_threshold :
  Forall (fun h => threshold h = 3)
         [Scenario.draws [2] 1; Scenario.draws [2; 2] 2] /\
  _advances_since_check More.two_drawn = 2 /\
  running More.two_drawn /\
  threshold More.lowered_interval = 2 /\
  _advances_since_check (poll More.two_drawn More.lowered_interval) = 2 /\
  ~ (_advances_since_check (poll More.two_drawn More.lowered_interval)
       < threshold More.lowered_interval).
Proof.
  split; [repeat constructor|]. split; [vm_compute; reflexivity|].
  split; [split; [vm_compute; reflexivity | vm_compute; discriminate]|].
  split; [vm_compute; reflexivity|]. split; [vm_compute; reflexivity|].
  vm_compute. intros H. discriminate H.
Qed.

(** C3 as stated fails: when [draw_handler_add] raises, start returns
    CANCELLED after the session variables were assigned. *)
Lemma start_handler_failure_changes_session :
  outcome (GP_OT_GuideStart_execute
             (Scenario.host_without_handler
                (Scenario.context_of 2 (Some Scenario.source_strokes) []
                   Scenario.immediate))
             Scenario.loaded) = Ret CANCELLED /\
  _guide_strokes_world
    (globals (GP_OT_GuideStart_execute
                (Scenario.host_without_handler
                   (Scenario.context_of 2 (Some Scenario.source_strokes) []
                      Scenario.immediate))
                Scenario.loaded))
  <> _guide_strokes_world Scenario.loaded /\
  _monitored_frame
    (globals (GP_OT_GuideStart_execute
                (Scenario.host_without_handler
                   (Scenario.context_of 2 (Some Scenario.source_strokes) []
                      Scenario.immediate))
                Scenario.loaded))
  <> _monitored_frame Scenario.loaded.
Proof. split; [reflexivity|]. split; vm_compute; discriminate. Qed.

(** C4 as stated fails on an empty cache: the index becomes
    [min(2 + 1, max(0, -1)) = 0], not [min(2 + 1, len - 1) = -1]. *)
Lemma advance_on_empty_cache :
  advances (run_polls Scenario.started Scenario.delete_source_at_third)
           Scenario.fourth_stroke_without_source 1 /\
  _guide_strokes_world
    (run_polls Scenario.started Scenario.delete_source_at_third) = [] /\
  _guide_index
    (poll (run_polls Scenario.started Scenario.delete_source_at_third)
          Scenario.fourth_stroke_without_source) = 0 /\
  Z.min (_guide_index
           (run_polls Scenario.started Scenario.delete_source_at_third) + 1)
        (len (_guide_strokes_world
                (run_polls Scenario.started Scenario.delete_source_at_third))
         - 1) = -1.
Proof.
  split.
  - split; [split; [reflexivity | discriminate]|].
    split; [reflexivity|]. split; [reflexivity|]. split; [reflexivity|].
    left. repeat split; reflexivity.
  - repeat split; reflexivity.
Qed.

(** C6 as stated fails while a commit is pending: the poll sees one stroke
    where two were last seen, stays pending with the new target, and leaves
    the last-seen count and the index as they were. *)
Lemma removal_while_pending_is_deferred :
  running (poll (Scenario.started_on [2; 2]) (Scenario.sees [2; 2; 4] 1)) /\
  same_frame (poll (Scenario.started_on [2; 2]) (Scenario.sees [2; 2; 4] 1))
             (Scenario.sees [2] (11 # 10)) /\
  live_count (Scenario.sees [2] (11 # 10)) = 1 /\
  _last_current_frame_count
    (poll (Scenario.started_on [2; 2]) (Scenario.sees [2; 2; 4] 1)) = 2 /\
  _pending_active
    (poll (poll (Scenario.started_on [2; 2]) (Scenario.sees [2; 2; 4] 1))
          (Scenario.sees [2] (11 # 10))) = true /\
  _last_current_frame_count
    (poll (poll (Scenario.started_on [2; 2]) (Scenario.sees [2; 2; 4] 1))
          (Scenario.sees [2] (11 # 10))) = 2 /\
  _guide_index
    (poll (poll (Scenario.started_on [2; 2]) (Scenario.sees [2; 2; 4] 1))
          (Scenario.sees [2] (11 # 10))) = 2 /\
  Z.min (live_count (Scenario.sees [2] (11 # 10)))
        (len (_guide_strokes_world
                (poll (Scenario.started_on [2; 2])
                      (Scenario.sees [2; 2; 4] 1))) - 1) = 1.
Proof.
  split; [split; [reflexivity | discriminate]|]. repeat split; reflexivity.
Qed.

(* ------------------------------------------------------------------ *)
(** ** The theorems at work on the scenario *)

(** The third single-stroke advance under interval 3. *)
Lemma integrity_counter_reset_witness :
  0 <= _advances_since_check
         (poll (run_polls Scenario.started
                  [Scenario.draws [2] 1; Scenario.draws [2; 2] 2])
               (Scenario.draws [2; 2; 2] 3)) < 3.
Proof.
  destruct (integrity_counter_reset 3 Scenario.started
              [Scenario.draws [2] 1; Scenario.draws [2; 2] 2]
              (Scenario.draws [2; 2; 2] 3)) as (_ & _ & H).
  apply H.
  - lia.
  - simpl. lia.
  - repeat constructor.
Defined.

(** Start when the handler cannot be installed. *)
Lemma start_failure_effects_witness :
  outcome (GP_OT_GuideStart_execute
             (Scenario.host_without_handler
                (Scenario.context_of 2 (Some Scenario.source_strokes) []
                   Scenario.immediate))
             Scenario.loaded) = Ret CANCELLED /\
  effects (GP_OT_GuideStart_execute
             (Scenario.host_without_handler
                (Scenario.context_of 2 (Some Scenario.source_strokes) []
                   Scenario.immediate))
             Scenario.loaded)
    = [Debug "handler add failed"; Report ERROR MsgHandlerFailed] /\
  _draw_handle
    (globals (GP_OT_GuideStart_execute
                (Scenario.host_without_handler
                   (Scenario.context_of 2 (Some Scenario.source_strokes) []
                      Scenario.immediate))
                Scenario.loaded)) = None /\
  _timer_keep
    (globals (GP_OT_GuideStart_execute
                (Scenario.host_without_handler
                   (Scenario.context_of 2 (Some Scenario.source_strokes) []
                      Scenario.immediate))
                Scenario.loaded)) = _timer_keep Scenario.loaded.
Proof.
  apply (start_failure_effects Scenario.loaded
           (Scenario.host_without_handler
              (Scenario.context_of 2 (Some Scenario.source_strokes) []
                 Scenario.immediate))).
  - vm_compute. discriminate.
  - reflexivity.
  - vm_compute. discriminate.
  - reflexivity.
  - reflexivity.
Defined.

(** The first stroke of the scenario, in immediate mode. *)
Lemma advance_index_clamped_witness :
  _guide_index (poll Scenario.started (Scenario.draws [2] 1)) =
    Z.min (_guide_index Scenario.started + 1)
          (Z.max 0 (len (_guide_strokes_world Scenario.started) - 1)) /\
  (_guide_strokes_world Scenario.started <> [] ->
   _guide_index (poll Scenario.started (Scenario.draws [2] 1)) =
     Z.min (_guide_index Scenario.started + 1)
           (len (_guide_strokes_world Scenario.started) - 1)) /\
  _last_current_frame_count (poll Scenario.started (Scenario.draws [2] 1))
    = live_count (Scenario.draws [2] 1) /\
  live_count (Scenario.draws [2] 1)
    = _last_current_frame_count Scenario.started + 1.
Proof.
  apply (advance_index_clamped Scenario.started
           (Scenario.draws [2] 1) 1).
  split; [split; [reflexivity | discriminate]|].
  split; [reflexivity|]. split; [reflexivity|]. split; [reflexivity|].
  left. repeat split; reflexivity.
Defined.

(** The commit of the release scenario: the point count was last seen to
    change at 1.2 s, and the index moves at 1.55 s. *)
Lemma release_mode_debounce_witness :
  exists pre e0 later,
    Scenario.growing_stroke = pre ++ e0 :: later /\
    context_raises e0 = false /\
    context_raises Scenario.settled_stroke = false /\
    stable_since e0 (later ++ [Scenario.settled_stroke]) /\
    (_debounce_seconds
       <= time_time Scenario.settled_stroke
          - time_time e0)%Q.
Proof.
  apply (release_mode_debounce Scenario.started
           Scenario.growing_stroke Scenario.settled_stroke).
  - reflexivity.
  - reflexivity.
  - reflexivity.
  - vm_compute. discriminate.
Defined.

(** An undo after two strokes. *)
Lemma removal_resync_witness :
  _pending_active
    (poll (run_polls Scenario.started
             [Scenario.draws [2] 1; Scenario.draws [2; 2] 2])
          (Scenario.draws [2] 3)) = false /\
  _last_current_frame_count
    (poll (run_polls Scenario.started
             [Scenario.draws [2] 1; Scenario.draws [2; 2] 2])
          (Scenario.draws [2] 3)) = live_count (Scenario.draws [2] 3).
Proof.
  destruct (removal_resync
              (run_polls Scenario.started
                 [Scenario.draws [2] 1; Scenario.draws [2; 2] 2])
              (Scenario.draws [2] 3)) as (H1 & H2 & _).
  - split; [reflexivity | discriminate].
  - reflexivity.
  - reflexivity.
  - reflexivity.
  - vm_compute. reflexivity.
  - split; [exact H1 | exact H2].
Defined.

(** A visit to frame 1 with the monitored frame locked on frame 2. *)
Lemma lock_frame_resync_witness :
  _monitored_frame
    (poll Scenario.started
       (Scenario.host_of
          (Scenario.context_of 1 (Some Scenario.source_strokes) []
             Scenario.locked) 1))
  = _monitored_frame Scenario.started /\
  _guide_index
    (poll Scenario.started
       (Scenario.host_of
          (Scenario.context_of 1 (Some Scenario.source_strokes) []
             Scenario.locked) 1))
  = _guide_index Scenario.started.
Proof.
  destruct (lock_frame_resync Scenario.started
              (Scenario.host_of
                 (Scenario.context_of 1 (Some Scenario.source_strokes) []
                    Scenario.locked) 1) 2)
    as (_ & H1 & H2 & _).
  - split; [reflexivity | discriminate].
  - reflexivity.
  - vm_compute. discriminate.
  - reflexivity.
  - split; [exact H1 | exact H2].
Defined.

(** A poll whose redraw raises, after the re-baseline on frame 1. *)
Lemma watch_timer_catches_witness :
  outcome (_watch_timer
             (Scenario.host_failing_redraw
                (Scenario.context_of 1 (Some Scenario.source_strokes) []
                   Scenario.immediate) 1)
             Scenario.started) = Ret (Some poll_interval) /\
  poll_interval = 12 # 100 /\
  running (globals (_watch_timer
                      (Scenario.host_failing_redraw
                         (Scenario.context_of 1 (Some Scenario.source_strokes)
                            [] Scenario.immediate) 1)
                      Scenario.started)).
Proof.
  apply (watch_timer_catches Scenario.started
           (Scenario.host_failing_redraw
              (Scenario.context_of 1 (Some Scenario.source_strokes) []
                 Scenario.immediate) 1)).
  - reflexivity.
  - vm_compute. discriminate.
Defined.

(** The handler on the state the integrity check left out of range. *)
Lemma draw_guides_in_bounds_witness :
  0 <= draw_index
         (poll (run_polls Scenario.started Scenario.edit_source_after_two)
               Scenario.third_stroke_after_edit)
    < len (_guide_strokes_world
             (poll (run_polls Scenario.started Scenario.edit_source_after_two)
                   Scenario.third_stroke_after_edit)).
Proof.
  destruct (draw_guides_in_bounds
              (poll (run_polls Scenario.started Scenario.edit_source_after_two)
                    Scenario.third_stroke_after_edit)
              Scenario.third_stroke_after_edit) as (_ & H & _).
  apply H. vm_compute. discriminate.
Defined.

(* ------------------------------------------------------------------ *)
(** * Further properties of the code *)

(** ** Reading the document *)

Lemma nearer_fold_invariant (current : Z) (l : list GPFrame) :
  forall (seen : list GPFrame) (acc : option GPFrame * option Z),
  (match acc with
   | (Some fr, Some d) =>
     In fr seen /\ eligible current fr /\ d = current - frame_number fr /\
     (forall f, In f seen -> eligible current f ->
                frame_number f <= frame_number fr)
   | (None, None) => forall f, In f seen -> ~ eligible current f
   | _ => False
   end) ->
  match fold_left (nearer current) l acc with
  | (Some fr, Some d) =>
    In fr (seen ++ l) /\ eligible current fr /\
    d = current - frame_number fr /\
    (forall f, In f (seen ++ l) -> eligible current f ->
               frame_number f <= frame_number fr)
  | (None, None) => forall f, In f (seen ++ l) -> ~ eligible current f
  | _ => False
  end.
Proof.
  induction l as [|x l IH]; intros seen acc Hacc.
  - simpl. rewrite app_nil_r. exact Hacc.
  - simpl.
    replace (seen ++ x :: l) with ((seen ++ [x]) ++ l)
      by (rewrite <- app_assoc; reflexivity).
    apply IH. unfold nearer.
    destruct ((frame_number x <? current) && has_strokes x) eqn:Ex.
    + apply andb_true_iff in Ex as [Ex1 Ex2]. apply Z.ltb_lt in Ex1.
      assert (Hx : eligible current x) by (split; assumption).
      destruct acc as [[fr|] [d|]]; simpl; try contradiction.
      * destruct Hacc as (Hin & Hel & Hd & Hbest).
        destruct (current - frame_number x <? d) eqn:Ed.
        -- apply Z.ltb_lt in Ed.
           split; [apply in_or_app; right; left; reflexivity|].
           split; [exact Hx|]. split; [reflexivity|].
           intros f Hf Hfe. apply in_app_or in Hf as [Hf | [<- | []]];
             [|lia]. specialize (Hbest f Hf Hfe). lia.
        -- apply Z.ltb_ge in Ed.
           split; [apply in_or_app; left; exact Hin|].
           split; [exact Hel|]. split; [exact Hd|].
           intros f Hf Hfe. apply in_app_or in Hf as [Hf | [<- | []]];
             [exact (Hbest f Hf Hfe) | lia].
      * split; [apply in_or_app; right; left; reflexivity|].
        split; [exact Hx|]. split; [reflexivity|].
        intros f Hf Hfe. apply in_app_or in Hf as [Hf | [<- | []]];
          [|lia]. exfalso. exact (Hacc f Hf Hfe).
    + assert (Hx : ~ eligible current x).
      { intros [H1 H2]. apply Z.ltb_lt in H1. rewrite H1, H2 in Ex.
        discriminate. }
      destruct acc as [[fr|] [d|]]; try contradiction.
      * destruct Hacc as (Hin & Hel & Hd & Hbest).
        split; [apply in_or_app; left; exact Hin|].
        split; [exact Hel|]. split; [exact Hd|].
        intros f Hf Hfe. apply in_app_or in Hf as [Hf | [<- | []]];
          [exact (Hbest f Hf Hfe) | contradiction].
      * intros f Hf. apply in_app_or in Hf as [Hf | [<- | []]];
          [exact (Hacc f Hf) | exact Hx].
Qed.

Lemma nearest_previous_frame_cases (layer : Layer) (current : Z) :
  match find_nearest_previous_frame layer current with
  | Some fr =>
    In fr (frames layer) /\ eligible current fr /\
    (forall f, In f (frames layer) -> eligible current f ->
               frame_number f <= frame_number fr)
  | None => forall f, In f (frames layer) -> ~ eligible current f
  end.
Proof.
  unfold find_nearest_previous_frame.
  pose proof (nearer_fold_invariant current (frames layer) [] (None, None))
    as H. simpl in H.
  destruct (fold_left (nearer current) (frames layer) (None, None))
    as [[fr|] [d|]]; simpl.
  - destruct H as (H1 & H2 & _ & H4); [intros f []|].
    split; [exact H1|]. split; [exact H2 | exact H4].
  - exfalso. apply H. intros f [].
  - exfalso. apply H. intros f [].
  - apply H. intros f [].
Qed.

(** X1. The frame [find_nearest_previous_frame] returns is a frame of the
    layer, strictly before the current frame, whose drawing has at least
    one stroke; and no such frame of the layer has a greater frame number. *)
Theorem nearest_previous_frame_is_nearest
    (layer : Layer) (current : Z) (fr : GPFrame) :
  find_nearest_previous_frame layer current = Some fr ->
  In fr (frames layer) /\
  frame_number fr < current /\
  (exists s strokes, drawing fr = Some (s :: strokes)) /\
  (forall f, In f (frames layer) ->
     frame_number f < current -> has_strokes f = true ->
     frame_number f <= frame_number fr).
Proof.
  intros E. pose proof (nearest_previous_frame_cases layer current) as H.
  rewrite E in H. destruct H as (Hin & [Hlt Hs] & Hbest).
  split; [exact Hin|]. split; [exact Hlt|]. split.
  - unfold has_strokes in Hs. destruct (drawing fr) as [[|s ss]|];
      try discriminate. eauto.
  - intros f Hf H1 H2. apply Hbest; [exact Hf | split; assumption].
Qed.

(** X2. [find_nearest_previous_frame] returns [None] exactly when no frame
    of the layer lies strictly before the current frame with at least one
    stroke. *)
Theorem nearest_previous_frame_none_iff (layer : Layer) (current : Z) :
  find_nearest_previous_frame layer current = None <->
  (forall f, In f (frames layer) ->
     ~ (frame_number f < current /\ has_strokes f = true)).
Proof.
  pose proof (nearest_previous_frame_cases layer current) as H.
  destruct (find_nearest_previous_frame layer current) as [fr|].
  - destruct H as (Hin & Hel & _). split; [discriminate|].
    intros Hno. exfalso. exact (Hno fr Hin Hel).
  - split; [intros _; exact H | reflexivity].
Qed.

Lemma filter_points_map (f : Vector -> Vector) (strokes : list Stroke) :
  filter (fun pts : Stroke => 1 <=? len pts) (map (map f) strokes) =
  map (map f) (filter (fun pts : Stroke => 1 <=? len pts) strokes).
Proof.
  induction strokes as [|s strokes IH]; [reflexivity|].
  cbn [filter map].
  assert (E : len (map f s) = len s) by (unfold len; rewrite length_map; reflexivity).
  rewrite E, IH. destruct (1 <=? len s); reflexivity.
Qed.

(** X3. The snapshot is the list of the strokes of the nearest previous
    frame that have a point, in their order, each point moved by the
    object's [matrix_world]; when every source stroke has a point, the
    snapshot has the same strokes with the same point counts. *)
Theorem snapshot_keeps_order_and_points
    (context : Context) (obj : Object) (layer : Layer) (fr : GPFrame)
    (strokes : list Stroke) :
  get_active_gp context = Some obj ->
  layers (data obj) <> [] ->
  layers_active (data obj) = Some layer ->
  find_nearest_previous_frame layer (frame_current (scene context)) = Some fr ->
  drawing fr = Some strokes ->
  get_previous_frame_strokes_world context =
    map (map (matrix_world obj))
        (filter (fun pts : Stroke => 1 <=? len pts) strokes) /\
  (Forall (fun pts : Stroke => pts <> []) strokes ->
   map (@List.length Vector) (get_previous_frame_strokes_world context) =
   map (@List.length Vector) strokes).
Proof.
  intros Hobj Hl Ha Hn Hd.
  assert (E : get_previous_frame_strokes_world context =
              map (map (matrix_world obj))
                  (filter (fun pts : Stroke => 1 <=? len pts) strokes)).
  { unfold get_previous_frame_strokes_world. rewrite Hobj, Ha.
    destruct (layers (data obj)); [congruence|]. rewrite Hn, Hd.
    apply filter_points_map. }
  split; [exact E|].
  - intros Hall. rewrite E.
    replace (filter (fun pts : Stroke => 1 <=? len pts) strokes) with strokes.
    + rewrite map_map. apply map_ext. intros s. apply length_map.
    + symmetry. apply forallb_filter_id. apply forallb_forall.
      intros s Hs. rewrite Forall_forall in Hall. specialize (Hall s Hs).
      apply Z.leb_le. destruct s; [congruence|]. unfold len. simpl. lia.
Qed.

(** X4. Whatever the document, a snapshot holds no stroke without points;
    it is empty when no Grease Pencil object is active, when the object has
    no layer or no active layer, and when the active layer has no frame with
    strokes before the current frame. *)
Theorem snapshot_edge_cases (context : Context) :
  Forall (fun pts : Stroke => pts <> [])
         (get_previous_frame_strokes_world context) /\
  (get_active_gp context = None ->
   get_previous_frame_strokes_world context = []) /\
  (forall obj, get_active_gp context = Some obj ->
     layers (data obj) = [] \/ layers_active (data obj) = None ->
     get_previous_frame_strokes_world context = []) /\
  (forall obj layer, get_active_gp context = Some obj ->
     layers_active (data obj) = Some layer ->
     (forall f, In f (frames layer) ->
        ~ (frame_number f < frame_current (scene context) /\
           has_strokes f = true)) ->
     get_previous_frame_strokes_world context = []).
Proof.
  split; [|split; [|split]].
  - unfold get_previous_frame_strokes_world.
    destruct (get_active_gp context) as [obj|]; [|constructor].
    destruct (layers (data obj)); [constructor|].
    destruct (layers_active (data obj)) as [layer|]; [|constructor].
    destruct (find_nearest_previous_frame _ _) as [fr|]; [|constructor].
    destruct (drawing fr) as [strokes|]; [|constructor].
    apply Forall_forall. intros pts Hin. apply filter_In in Hin as [_ Hs].
    apply Z.leb_le in Hs.
    destruct pts; [unfold len in Hs; simpl in Hs; lia | discriminate].
  - intros E. unfold get_previous_frame_strokes_world. rewrite E. reflexivity.
  - intros obj E [H | H]; unfold get_previous_frame_strokes_world;
      rewrite E, H; [reflexivity|]. destruct (layers (data obj)); reflexivity.
  - intros obj layer E Ha Hno. unfold get_previous_frame_strokes_world.
    rewrite E, Ha. destruct (layers (data obj)); [reflexivity|].
    pose proof (nearest_previous_frame_cases layer
                  (frame_current (scene context))) as Hc.
    destruct (find_nearest_previous_frame _ _) as [fr|]; [|reflexivity].
    destruct Hc as (Hin & Hel & _). exfalso. exact (Hno fr Hin Hel).
Qed.

(** X5. The frame that the stroke count and the point count are read from
    has the frame number asked for and is the layer's active frame or one of
    its frames; the lookup fails only when neither the active frame nor any
    frame of the layer has that number. *)
Theorem lookup_frame_sound_complete (layer : Layer) (n : Z) :
  (forall fr, lookup_frame layer n = Some fr ->
     frame_number fr = n /\
     (active_frame layer = Some fr \/ In fr (frames layer))) /\
  (lookup_frame layer n = None ->
   (forall fr, active_frame layer = Some fr -> frame_number fr <> n) /\
   (forall fr, In fr (frames layer) -> frame_number fr <> n)).
Proof.
  unfold lookup_frame. split.
  - intros fr H.
    assert (Hfind : forall fr0,
      find (fun f => frame_number f =? n) (frames layer) = Some fr0 ->
      frame_number fr0 = n /\ In fr0 (frames layer)).
    { intros fr0 E. apply find_some in E as [Hin Hn].
      apply Z.eqb_eq in Hn. split; assumption. }
    destruct (active_frame layer) as [af|].
    + destruct (frame_number af =? n) eqn:E.
      * inversion H; subst. apply Z.eqb_eq in E. split; [exact E | left; reflexivity].
      * destruct (Hfind fr H) as [H1 H2]. split; [exact H1 | right; exact H2].
    + destruct (Hfind fr H) as [H1 H2]. split; [exact H1 | right; exact H2].
  - intros H.
    assert (Hfind :
      find (fun f => frame_number f =? n) (frames layer) = None ->
      forall fr, In fr (frames layer) -> frame_number fr <> n).
    { intros E fr Hin Hn.
      pose proof (find_none _ _ E fr Hin) as Hf. simpl in Hf.
      apply Z.eqb_neq in Hf. contradiction. }
    destruct (active_frame layer) as [af|].
    + destruct (frame_number af =? n) eqn:E; [discriminate|].
      apply Z.eqb_neq in E. split; [|exact (Hfind H)].
      intros fr Hfr. inversion Hfr; subst. exact E.
    + split; [discriminate | exact (Hfind H)].
Qed.

(** X6. On a host whose active layer, when there is one, belongs to a
    non-empty layer collection, the two readers agree on emptiness: a frame
    for which [get_frame_stroke_count] is 0 has last-stroke point count 0,
    and both are 0 when no Grease Pencil object is active. Neither is ever
    negative. *)
Theorem pointlen_zero_when_no_strokes (context : Context) (n : Z) :
  (forall obj, get_active_gp context = Some obj ->
     layers_active (data obj) <> None -> layers (data obj) <> []) ->
  (get_frame_stroke_count context n = 0 ->
   get_last_stroke_pointlen context n = 0) /\
  (get_active_gp context = None ->
   get_frame_stroke_count context n = 0 /\
   get_last_stroke_pointlen context n = 0) /\
  0 <= get_frame_stroke_count context n /\
  0 <= get_last_stroke_pointlen context n.
Proof.
  intros Hhost.
  unfold get_frame_stroke_count, get_last_stroke_pointlen.
  destruct (get_active_gp context) as [obj|];
    [|repeat split; intros; reflexivity || lia].
  specialize (Hhost obj eq_refl).
  destruct (layers_active (data obj)) as [layer|].
  - destruct (layers (data obj)) eqn:El;
      [exfalso; apply Hhost; [discriminate | reflexivity]|].
    destruct (lookup_frame layer n) as [fr|];
      [|repeat split; intros; discriminate || reflexivity || lia].
    destruct (drawing fr) as [strokes|];
      [|repeat split; intros; discriminate || reflexivity || lia].
    split; [|split; [discriminate|split; [apply len_nonneg|]]].
    + intros H0. destruct strokes; [reflexivity|].
      unfold len in H0. simpl in H0. lia.
    + destruct (rev strokes); [lia | apply len_nonneg].
  - destruct (layers (data obj));
      repeat split; intros; discriminate || reflexivity || lia.
Qed.

(* ------------------------------------------------------------------ *)
(** ** Invariants of the watcher *)

Ltac bool_prop :=
  repeat match goal with
  | H : (_ <? _) = true |- _ => apply Z.ltb_lt in H
  | H : (_ <? _) = false |- _ => apply Z.ltb_ge in H
  | H : (_ <=? _) = true |- _ => apply Z.leb_le in H
  | H : (_ <=? _) = false |- _ => apply Z.leb_gt in H
  | H : (_ =? _) = true |- _ => apply Z.eqb_eq in H
  | H : (_ =? _) = false |- _ => apply Z.eqb_neq in H
  | H : negb _ = true |- _ => apply negb_true_iff in H
  | H : negb _ = false |- _ => apply negb_false_iff in H
  end.

Lemma resync_index_nonneg (count : Z) (g : Session) :
  0 <= count -> 0 <= resync_index count g.
Proof.
  intros H. unfold resync_index.
  destruct (_guide_strokes_world g); [lia|].
  pose proof (len_nonneg (s :: l)). lia.
Qed.

Lemma counts_nonneg_step (g : Session) (host : Host) :
  counts_nonneg g -> counts_nonneg (poll g host).
Proof.
  intros (Hi & Hl & Hc).
  destruct (_timer_keep g) eqn:Ek;
    [|rewrite (poll_stopped g host Ek); repeat split; assumption].
  destruct (_draw_handle g) eqn:Eh;
    [|rewrite (poll_no_handle g host Ek Eh); repeat split; assumption].
  assert (Hrun : running g) by (split; congruence).
  rewrite (poll_watch_globals g host Hrun).
  pose proof (get_frame_stroke_count_nonneg (context host) (live_frame host))
    as Hcount. fold (live_count host) in Hcount.
  pose proof (len_nonneg (_guide_strokes_world g)) as Hlen.
  unfold counts_nonneg. watch_cases; bool_prop;
    cbn [_guide_index _last_current_frame_count _advances_since_check
         set_guide_index set_last_current_frame_count set_pending_active
         set_advances_since_check set_guide_strokes_world set_pending_time
         set_pending_target set_pending_last_pointlen set_monitored_frame];
    unfold advance_index, advance_counter;
    repeat match goal with
    | |- context [resync_index ?c ?x] =>
        let H := fresh in
        pose proof (resync_index_nonneg c x Hcount) as H;
        generalize dependent (resync_index c x); intros
    end;
    repeat split; try lia;
    destruct (threshold host <=? _); lia.
Qed.

(** X7. Along every run of polls, for every host behaviour, the guide
    index, the last-seen stroke count and the integrity counter stay
    non-negative once they are. *)
Theorem polls_keep_counts_nonneg (hosts : list Host) : forall g : Session,
  0 <= _guide_index g ->
  0 <= _last_current_frame_count g ->
  0 <= _advances_since_check g ->
  0 <= _guide_index (run_polls g hosts) /\
  0 <= _last_current_frame_count (run_polls g hosts) /\
  0 <= _advances_since_check (run_polls g hosts).
Proof.
  induction hosts as [|h hosts IH]; intros g Hi Hl Hc.
  - repeat split; assumption.
  - simpl. destruct (counts_nonneg_step g h) as (H1 & H2 & H3);
      [repeat split; assumption|]. apply IH; assumption.
Qed.

Ltac session_cbn :=
  cbn [_draw_handle _timer_keep _guide_strokes_world _guide_index
       _monitored_frame _last_current_frame_count _pending_active
       _pending_target _pending_time _pending_last_pointlen
       _advances_since_check
       set_draw_handle set_timer_keep set_guide_strokes_world set_guide_index
       set_monitored_frame set_last_current_frame_count set_pending_active
       set_pending_target set_pending_time set_pending_last_pointlen
       set_advances_since_check] in *.

(** X8. A poll that writes the guide index and leaves the cached strokes
    as they were puts the index below the length of a non-empty list,
    whatever the index was before, also one left past the end by an earlier
    integrity check; and it does not make a non-negative index negative. *)
Theorem index_write_restores_range (g : Session) (host : Host) :
  _guide_index (poll g host) <> _guide_index g ->
  _guide_strokes_world (poll g host) = _guide_strokes_world g ->
  _guide_strokes_world g <> [] ->
  _guide_index (poll g host) < len (_guide_strokes_world g) /\
  (0 <= _guide_index g -> 0 <= _guide_index (poll g host)).
Proof.
  destruct (_timer_keep g) eqn:Ek;
    [|rewrite (poll_stopped g host Ek); congruence].
  destruct (_draw_handle g) eqn:Eh;
    [|rewrite (poll_no_handle g host Ek Eh); simpl; congruence].
  assert (Hrun : running g) by (split; congruence).
  rewrite (poll_watch_globals g host Hrun).
  pose proof (get_frame_stroke_count_nonneg (context host) (live_frame host))
    as Hcount. fold (live_count host) in Hcount.
  unfold watch_globals. rewrite ?advance_globals.
  unfold advance_index, resync_index.
  repeat break_if; session_cbn; intros Hchg Hsame Hne;
    try congruence;
    pose proof (len_pos _ Hne) as Hpos; bool_prop;
    destruct (_guide_strokes_world g) eqn:El; try congruence;
    cbv beta iota in *;
    repeat match goal with
    | H : _ :: _ = _ :: _ |- _ => injection H as ? ?; subst
    end;
    split; lia.
Qed.

Lemma frame_changed_other (g : Session) (host : Host) :
  ~ same_frame g host ->
  frame_changed (_monitored_frame g) (live_frame host) = true.
Proof.
  intros H. destruct (frame_changed _ _) eqn:E; [reflexivity|].
  exfalso. apply H. apply frame_changed_false. exact E.
Qed.

(** X9. A poll of an active session that finds the current frame other
    than the monitored one (or no monitored frame) clears the pending flag
    and sets the last-seen count to the stroke count of the current frame,
    with the lock on or off, and writes neither the cached strokes nor the
    integrity counter. Unless the lock holds the monitored frame, the
    current frame becomes the monitored one and the guide index becomes
    [min(count, len(strokes)-1)] (0 for an empty cache), in range whatever
    it was before. *)
Theorem frame_change_resync (g : Session) (host : Host) :
  running g ->
  context_raises host = false ->
  ~ same_frame g host ->
  _pending_active (poll g host) = false /\
  _last_current_frame_count (poll g host) = live_count host /\
  _guide_strokes_world (poll g host) = _guide_strokes_world g /\
  _advances_since_check (poll g host) = _advances_since_check g /\
  (lock_mode host = false \/ _monitored_frame g = None ->
   _monitored_frame (poll g host) = Some (live_frame host) /\
   index_in_range (poll g host) /\
   (_guide_strokes_world g <> [] ->
    _guide_index (poll g host) =
      Z.min (live_count host) (len (_guide_strokes_world g) - 1)) /\
   (_guide_strokes_world g = [] -> _guide_index (poll g host) = 0)).
Proof.
  intros Hrun Hc Hf. apply frame_changed_other in Hf.
  pose proof (get_frame_stroke_count_nonneg (context host) (live_frame host))
    as Hcount. fold (live_count host) in Hcount.
  rewrite (poll_watch_globals g host Hrun). unfold watch_globals.
  rewrite Hc, Hf.
  destruct (lock_mode host && is_some (_monitored_frame g)) eqn:El.
  - do 4 (split; [reflexivity|]).
    apply andb_true_iff in El as [E1 E2]. intros [H | H]; exfalso.
    + congruence.
    + rewrite H in E2. discriminate.
  - cbv zeta. do 4 (split; [reflexivity|]). intros _.
    split; [reflexivity|]. split; [|split].
    + unfold index_in_range. session_cbn.
      exact (resync_index_in_range (live_count host)
               (set_last_current_frame_count (live_count host)
                  (set_monitored_frame (Some (live_frame host)) g)) Hcount).
    + session_cbn. intros Hne. unfold resync_index. session_cbn.
      pose proof (len_pos _ Hne).
      destruct (_guide_strokes_world g); [congruence | lia].
    + session_cbn. intros E. unfold resync_index. session_cbn.
      rewrite E. reflexivity.
Qed.

(* ------------------------------------------------------------------ *)
(** ** The life of a session *)

Arguments len : simpl never.

Lemma poll_handle (g : Session) (host : Host) :
  _draw_handle (poll g host) = _draw_handle g.
Proof.
  destruct (_timer_keep g) eqn:Ek;
    [|rewrite (poll_stopped g host Ek); reflexivity].
  destruct (_draw_handle g) eqn:Eh;
    [|rewrite (poll_no_handle g host Ek Eh); simpl; congruence].
  assert (Hrun : running g) by (split; congruence).
  rewrite (poll_watch_globals g host Hrun), watch_globals_handle. exact Eh.
Qed.

(** X10. Polls never end and never revive a session, and never write the
    draw handle: after any run of polls the handle is the one before, and
    the session is active exactly when it was active before. *)
Theorem polls_keep_session (hosts : list Host) : forall g : Session,
  _draw_handle (run_polls g hosts) = _draw_handle g /\
  (running (run_polls g hosts) <-> running g).
Proof.
  induction hosts as [|h hosts IH]; intros g.
  - simpl. split; [reflexivity | tauto].
  - simpl. destruct (IH (poll g h)) as [IH1 IH2]. split.
    + rewrite IH1. apply poll_handle.
    + rewrite IH2. split; [apply poll_running_before | apply poll_keeps_running].
Qed.

(** X11. Stop halts polling: in the globals a stop leaves, whatever they
    were before and whatever the host did during the stop, a call of the
    watcher returns [None] (the timer is not rescheduled), asks nothing of
    the host and writes nothing, and any run of polls changes nothing. *)
Theorem stop_halts_polling
    (g : Session) (host_stop host : Host) (hosts : list Host) :
  _watch_timer host (globals (GP_OT_GuideStop_execute host_stop g)) =
    {| outcome := Ret None;
       globals := globals (GP_OT_GuideStop_execute host_stop g);
       effects := [] |} /\
  run_polls (globals (GP_OT_GuideStop_execute host_stop g)) hosts =
    globals (GP_OT_GuideStop_execute host_stop g).
Proof.
  rewrite stop_globals. split.
  - reflexivity.
  - induction hosts as [|h hosts IH]; [reflexivity|].
    simpl. rewrite poll_stopped; [exact IH | reflexivity].
Qed.

(** X12. A start that returns FINISHED leaves an active session whose
    cache is the fresh, non-empty snapshot, whose monitored frame is the
    current frame, whose last-seen count is that frame's stroke count, and
    whose guide index is [min(count, len(strokes)-1)], within the list; no
    commit is pending and the integrity counter is 0. *)
Theorem start_establishes_session (g : Session) (host : Host) :
  outcome (GP_OT_GuideStart_execute host g) = Ret FINISHED ->
  running (globals (GP_OT_GuideStart_execute host g)) /\
  index_in_range (globals (GP_OT_GuideStart_execute host g)) /\
  _guide_strokes_world (globals (GP_OT_GuideStart_execute host g))
    = fresh_snapshot host /\
  fresh_snapshot host <> [] /\
  _monitored_frame (globals (GP_OT_GuideStart_execute host g))
    = Some (live_frame host) /\
  _last_current_frame_count (globals (GP_OT_GuideStart_execute host g))
    = live_count host /\
  _guide_index (globals (GP_OT_GuideStart_execute host g))
    = Z.min (live_count host) (len (fresh_snapshot host) - 1) /\
  _pending_active (globals (GP_OT_GuideStart_execute host g)) = false /\
  _advances_since_check (globals (GP_OT_GuideStart_execute host g)) = 0.
Proof.
  pose proof (get_frame_stroke_count_nonneg (context host) (live_frame host))
    as Hcount. fold (live_count host) in Hcount.
  unfold GP_OT_GuideStart_execute, fresh_snapshot, live_count, live_frame in *.
  destruct (get_active_gp (context host)) as [obj|]; [|discriminate].
  unfold_py. cbn.
  destruct (snapshot_raises host); cbn; [discriminate|].
  destruct (get_previous_frame_strokes_world (context host))
    as [|s0 strokes] eqn:Es; cbn; [discriminate|].
  assert (Hpos : 0 < len (s0 :: strokes)) by (apply len_pos; discriminate).
  destruct (_draw_handle g) eqn:Eh; cbn.
  - destruct (redraw_raises host); cbn; [discriminate|]. intros _.
    unfold running, index_in_range. cbn.
    repeat split; try reflexivity; try discriminate; try lia; congruence.
  - destruct (handler_add host); cbn; [|discriminate].
    destruct (redraw_raises host); cbn; [discriminate|]. intros _.
    unfold running, index_in_range. cbn.
    repeat split; try reflexivity; try discriminate; try lia.
Qed.

(** X13. Start never installs a second draw handler: when a handle is
    held, start keeps it and calls [draw_handler_add] not at all; when none
    is held, the handle held afterwards is exactly the one
    [draw_handler_add] returned during this start, if any. *)
Theorem start_installs_one_handler (g : Session) (host : Host) :
  (forall h, _draw_handle g = Some h ->
     _draw_handle (globals (GP_OT_GuideStart_execute host g)) = Some h /\
     forall h', ~ In (HandlerAdd h')
                     (effects (GP_OT_GuideStart_execute host g))) /\
  (_draw_handle g = None ->
   forall h',
     In (HandlerAdd h') (effects (GP_OT_GuideStart_execute host g)) <->
     _draw_handle (globals (GP_OT_GuideStart_execute host g)) = Some h').
Proof.
  unfold GP_OT_GuideStart_execute.
  destruct (get_active_gp (context host)) as [obj|].
  2:{ unfold_py. simpl. split.
      - intros h Eh. split; [exact Eh|]. intros h' [H | []]. discriminate.
      - intros Eh h'. rewrite Eh. split; [intros [H | []]|]; discriminate. }
  unfold_py. simpl.
  destruct (snapshot_raises host); simpl.
  { split.
    - intros h Eh. split; [exact Eh | intros h' []].
    - intros Eh h'. rewrite Eh. split; [intros [] | discriminate]. }
  destruct (get_previous_frame_strokes_world (context host))
    as [|s0 strokes]; simpl.
  { split.
    - intros h Eh. split; [exact Eh|]. intros h' [H | []]. discriminate.
    - intros Eh h'. rewrite Eh. split; [intros [H | []]|]; discriminate. }
  destruct (_draw_handle g) eqn:Eh; simpl.
  - split; [|discriminate]. intros h0 E0.
    destruct (redraw_raises host); simpl; (split; [congruence|]);
      intros h' H; simpl in H; intuition discriminate.
  - split; [discriminate|]. intros _ h'.
    destruct (handler_add host) as [h1|]; simpl.
    + destruct (redraw_raises host); simpl;
        (split; [intros H; intuition (try discriminate); congruence
                | intros H; left; congruence]).
    + split; [intros H; intuition discriminate | discriminate].
Qed.

(* ------------------------------------------------------------------ *)
(** ** Commits *)

Lemma debounce_still_elapsed (t now now2 : Q) :
  (_debounce_seconds <= now - t)%Q -> (now <= now2)%Q ->
  Qle_bool _debounce_seconds (now2 - t) = true.
Proof.
  intros H1 H2. apply Qle_bool_iff.
  apply (Qle_trans _ (now - t)); [exact H1|].
  unfold Qminus. apply Qplus_le_compat; [exact H2 | apply Qle_refl].
Qed.

(** X14. A commit is applied once. After the poll that resolves a pending
    commit by an advance, also when the snapshot or the redraw raised during
    it and the pending flag was therefore left set, a later poll that sees
    the same frame, stroke count and point count changes neither the guide
    index, nor the last-seen count, nor the integrity counter, nor the
    cached strokes, and leaves no commit pending. *)
Theorem commit_applied_once (g : Session) (host host2 : Host) (added : Z) :
  advances g host added ->
  _pending_active g = true ->
  context_raises host2 = false ->
  live_frame host2 = live_frame host ->
  live_count host2 = live_count host ->
  live_pointlen host2 = live_pointlen host ->
  (time_time host <= time_time host2)%Q ->
  _guide_index (poll (poll g host) host2) = _guide_index (poll g host) /\
  _last_current_frame_count (poll (poll g host) host2)
    = _last_current_frame_count (poll g host) /\
  _advances_since_check (poll (poll g host) host2)
    = _advances_since_check (poll g host) /\
  _guide_strokes_world (poll (poll g host) host2)
    = _guide_strokes_world (poll g host) /\
  _pending_active (poll (poll g host) host2) = false.
Proof.
  intros (Hrun & Hc & Hf & Hpos & Hcase) Hp Hc2 Hf2 Hn2 Hl2 Ht2.
  destruct Hcase as [(Hp' & _) | (_ & Hn & Hl & Hd & Ha)]; [congruence|].
  assert (Hrun1 : running (poll g host)) by (apply poll_keeps_running; exact Hrun).
  assert (Hf' : frame_changed (_monitored_frame g) (live_frame host2) = false)
    by (rewrite Hf2; apply frame_changed_same; exact Hf).
  assert (Hml : get_last_stroke_pointlen (context host2) (live_frame host)
                = _pending_last_pointlen g).
  { rewrite <- Hl, <- Hl2, <- Hf2. reflexivity. }
  pose proof (debounce_still_elapsed _ _ _ Hd Ht2) as Hd2.
  apply Qle_bool_iff in Hd.
  assert (Ea : (0 <? _pending_target g - _last_current_frame_count g) = true)
    by (apply Z.ltb_lt; lia).
  pose proof (poll_watch_globals g host Hrun) as E1.
  unfold watch_globals in E1.
  rewrite Hc, (frame_changed_same g host Hf),
    (monitored_pointlen_same g host Hf), Hp, Hn, Hl, !Z.eqb_refl in E1.
  cbn [negb] in E1. rewrite Hd, Ea in E1. cbv zeta in E1.
  rewrite advance_globals in E1.
  rewrite (poll_watch_globals (poll g host) host2 Hrun1), E1.
  unfold same_frame in Hf.
  destruct (advance_raises host _ g).
  - unfold watch_globals, monitored_pointlen. session_cbn.
    rewrite Hc2, Hf', Hp, Hf, Hml, Hn2, Hn, !Z.eqb_refl.
    cbn [negb]. rewrite Hd2, Z.sub_diag. cbn [Z.ltb Z.compare].
    repeat split; reflexivity.
  - unfold watch_globals. session_cbn.
    rewrite Hc2, Hf', Hn2, Hn, !Z.ltb_irrefl. repeat split; reflexivity.
Qed.

(** X15. Deferring an advance changes when it happens, not what it does.
    From a state with no commit pending, a poll in advance-on-release mode
    that sees new strokes, followed by a poll that sees the same frame,
    stroke count and point count at least the debounce interval later,
    leaves the guide index, the last-seen count, the integrity counter, the
    cached strokes and the monitored frame as one poll in immediate mode
    does that sees the same stroke count under the same integrity interval
    and snapshot. *)
Theorem release_commit_matches_immediate
    (g : Session) (h1 h2 hi : Host) :
  running g ->
  _pending_active g = false ->
  same_frame g h1 ->
  context_raises h1 = false ->
  release_mode h1 = true ->
  _last_current_frame_count g < live_count h1 ->
  context_raises h2 = false ->
  live_frame h2 = live_frame h1 ->
  live_count h2 = live_count h1 ->
  live_pointlen h2 = live_pointlen h1 ->
  (_debounce_seconds <= time_time h2 - time_time h1)%Q ->
  context_raises hi = false ->
  live_frame hi = live_frame h1 ->
  live_count hi = live_count h1 ->
  release_mode hi = false ->
  threshold hi = threshold h2 ->
  snapshot_raises hi = snapshot_raises h2 ->
  fresh_snapshot hi = fresh_snapshot h2 ->
  _guide_index (poll (poll g h1) h2) = _guide_index (poll g hi) /\
  _last_current_frame_count (poll (poll g h1) h2)
    = _last_current_frame_count (poll g hi) /\
  _advances_since_check (poll (poll g h1) h2)
    = _advances_since_check (poll g hi) /\
  _guide_strokes_world (poll (poll g h1) h2)
    = _guide_strokes_world (poll g hi) /\
  _monitored_frame (poll (poll g h1) h2) = _monitored_frame (poll g hi).
Proof.
  intros Hrun Hp Hf Hc1 Hr1 Hlt Hc2 Hf2 Hn2 Hl2 Hd Hci Hfi Hni Hri Hti Hsi Hxi.
  assert (Hrun1 : running (poll g h1)) by (apply poll_keeps_running; exact Hrun).
  assert (Ea : (_last_current_frame_count g <? live_count h1) = true)
    by (apply Z.ltb_lt; exact Hlt).
  assert (Eb : (0 <? live_count h1 - _last_current_frame_count g) = true)
    by (apply Z.ltb_lt; lia).
  apply Qle_bool_iff in Hd.
  assert (Hml : get_last_stroke_pointlen (context h2) (live_frame h1)
                = live_pointlen h1).
  { rewrite <- Hl2, <- Hf2. reflexivity. }
  (* the poll in immediate mode *)
  pose proof (poll_watch_globals g hi Hrun) as Ei.
  unfold watch_globals in Ei.
  rewrite Hci, Hfi, (frame_changed_same g h1 Hf), Hp, Hni, Ea, Hri,
    advance_globals in Ei.
  (* the poll that starts the wait *)
  pose proof (poll_watch_globals g h1 Hrun) as E1.
  unfold watch_globals in E1.
  rewrite Hc1, (frame_changed_same g h1 Hf), Hp, Ea, Hr1,
    (monitored_pointlen_same g h1 Hf) in E1.
  (* the poll that commits *)
  rewrite (poll_watch_globals (poll g h1) h2 Hrun1), E1, Ei.
  pose proof (frame_changed_same g h1 Hf) as Hfc. unfold same_frame in Hf.
  unfold watch_globals, monitored_pointlen. session_cbn.
  rewrite Hc2, Hf2, Hfc, Hn2, Z.eqb_refl, Hf, Hml, Z.eqb_refl. cbn [negb].
  rewrite Hd, Eb. cbv zeta. rewrite !advance_globals.
  unfold advance_strokes, advance_counter, advance_index.
  rewrite Hti, Hsi, Hxi.
  destruct (advance_raises h2 _ _); session_cbn; repeat split;
    reflexivity || congruence.
Qed.

(* ------------------------------------------------------------------ *)
(** ** The stop operator and the host *)

(** X17. Stop clears the session whether or not the host cooperates. It
    asks the host to remove the draw handler exactly when one is held and
    the removal does not raise; when the removal raises, the exception is
    logged and the handle is forgotten all the same. Stop returns FINISHED
    unless the redraw raises, and then the exception leaves it with the
    globals already cleared. *)
Theorem stop_clears_despite_failures (g : Session) (host : Host) :
  (forall h, In (HandlerRemove h) (effects (GP_OT_GuideStop_execute host g)) <->
     _draw_handle g = Some h /\ handler_remove_raises host = false) /\
  (In (Debug "handler remove failed")
      (effects (GP_OT_GuideStop_execute host g)) <->
   _draw_handle g <> None /\ handler_remove_raises host = true) /\
  (redraw_raises host = false ->
   outcome (GP_OT_GuideStop_execute host g) = Ret FINISHED) /\
  (redraw_raises host = true ->
   outcome (GP_OT_GuideStop_execute host g) = Raise) /\
  _draw_handle (globals (GP_OT_GuideStop_execute host g)) = None /\
  _timer_keep (globals (GP_OT_GuideStop_execute host g)) = false /\
  _guide_strokes_world (globals (GP_OT_GuideStop_execute host g)) = [].
Proof.
  split; [|split; [|split; [|split; [|rewrite stop_globals; repeat split]]]];
    unfold GP_OT_GuideStop_execute; unfold_py; cbn;
    destruct (_draw_handle g) as [h0|]; cbn;
    destruct (handler_remove_raises host); cbn;
    destruct (redraw_raises host); cbn;
    try (intros h); try (intros H);
    try reflexivity; try discriminate;
    try (split; intros H'; intuition (try discriminate; try congruence)).
Qed.

(* ------------------------------------------------------------------ *)
(** ** A failing integrity check *)

(** X18. When an advance makes the counter reach the interval and taking
    the snapshot raises, the advance itself stands (index and last-seen
    count are written), the counter restarts at 0 and the cached strokes are
    kept as they were: the check is skipped, not retried at the next poll.
    The pending flag is left as it was, so a commit stays pending. *)
Theorem failed_integrity_check_keeps_cache
    (g : Session) (host : Host) (added : Z) :
  advances g host added ->
  threshold host <= _advances_since_check g + added ->
  snapshot_raises host = true ->
  _guide_strokes_world (poll g host) = _guide_strokes_world g /\
  _advances_since_check (poll g host) = 0 /\
  _guide_index (poll g host) =
    Z.min (_guide_index g + added)
          (Z.max 0 (len (_guide_strokes_world g) - 1)) /\
  _last_current_frame_count (poll g host) = live_count host /\
  _pending_active (poll g host) = _pending_active g.
Proof.
  intros Hadv Hth Hs.
  destruct (advances_globals g host added Hadv) as (Hi & Hl & Hc & Hst & _).
  unfold advance_counter in Hc. unfold advance_strokes in Hst.
  apply Z.leb_le in Hth. rewrite Hth in Hc, Hst. rewrite Hs in Hst.
  split; [exact Hst|]. split; [exact Hc|]. split; [exact Hi|].
  split; [exact Hl|].
  destruct Hadv as (Hrun & Hctx & Hf & Hpos & Hcase).
  rewrite (poll_watch_globals g host Hrun). unfold watch_globals.
  rewrite Hctx, (frame_changed_same g host Hf),
    (monitored_pointlen_same g host Hf).
  destruct Hcase as [(Hp & Hr & Ha) | (Hp & Hn & Hlen & Hd & Ha)].
  - rewrite Hp, Hr.
    assert (E : (_last_current_frame_count g <? live_count host) = true)
      by (apply Z.ltb_lt; lia).
    rewrite E, advance_globals. session_cbn. congruence.
  - rewrite Hp, Hn, Hlen, !Z.eqb_refl. cbn [negb].
    apply Qle_bool_iff in Hd. rewrite Hd, <- Ha.
    assert (E : (0 <? added) = true) by (apply Z.ltb_lt; lia).
    rewrite E. cbv zeta.
    assert (Er : advance_raises host added g = true).
    { unfold advance_raises. rewrite Hth, Hs. reflexivity. }
    rewrite Er, advance_globals. session_cbn. congruence.
Qed.

(* ------------------------------------------------------------------ *)
(** ** The arrow loop *)

Lemma py_range_In (start stop step i : Z) :
  0 < step ->
  In i (py_range start stop step) <->
  start <= i < stop /\ (i - start) mod step = 0.
Proof.
  intros Hs. unfold py_range. rewrite in_map_iff. split.
  - intros (k & <- & Hk). apply in_seq in Hk as [_ Hk]. simpl in Hk.
    set (q := (stop - start + step - 1) / step) in *.
    assert (Hq : Z.of_nat k < q) by lia.
    assert (Hm : step * q <= stop - start + step - 1)
      by (apply Z.mul_div_le; exact Hs).
    split; [nia|].
    replace (start + step * Z.of_nat k - start) with (Z.of_nat k * step)
      by lia.
    apply Z_mod_mult.
  - intros ([H1 H2] & Hmod).
    exists (Z.to_nat ((i - start) / step)).
    assert (Hq0 : 0 <= (i - start) / step) by (apply Z.div_pos; lia).
    assert (Hi : i - start = step * ((i - start) / step)).
    { rewrite (Z.div_mod (i - start) step) at 1 by lia. lia. }
    split; [rewrite Z2Nat.id by exact Hq0; lia|].
    apply in_seq. split; [lia|]. simpl.
    apply Z2Nat.inj_lt; [exact Hq0 | |].
    + apply Z.div_pos; lia.
    + apply Z.div_lt_upper_bound; [exact Hs|].
      assert (step * ((stop - start + step - 1) / step)
              > stop - start + step - 1 - step).
      { pose proof (Z.mod_pos_bound (stop - start + step - 1) step Hs).
        pose proof (Z.div_mod (stop - start + step - 1) step). lia. }
      nia.
Qed.

Lemma margin_steps_bounds (raw seg_count : Z) :
  0 <= margin_steps raw seg_count /\
  (0 <= seg_count -> 2 * margin_steps raw seg_count <= seg_count).
Proof.
  unfold margin_steps. split; [lia|]. intros H.
  pose proof (Z.mul_div_le seg_count 2). 
  assert (0 <= seg_count / 2) by (apply Z.div_pos; lia). lia.
Qed.

(** X19. The loops of [draw_guides] over the projected points never
    subscript out of range. For every list [pts2d], every margin the float
    computation yields and every float quotient, each [i] of the arrow loop
    and of the tick loop satisfies [0 <= i] and [i+1 < len(pts2d)], so
    [pts2d[i]] and [pts2d[i+1]] exist and are not reached through a
    negative index; in the arrow loop [i] also keeps the clamped margin from
    both ends. *)
Theorem arrow_subscripts_in_bounds
    {A : Type} (pts2d : list A) (raw quot i : Z) :
  In i (arrow_indices raw quot (len pts2d - 1)) \/
  In i (tick_indices quot (len pts2d - 1)) ->
  0 <= i /\ i + 1 < len pts2d /\
  (exists a b,
     py_getitem pts2d i = Some a /\ nth_error pts2d (Z.to_nat i) = Some a /\
     py_getitem pts2d (i + 1) = Some b /\
     nth_error pts2d (Z.to_nat (i + 1)) = Some b) /\
  (In i (arrow_indices raw quot (len pts2d - 1)) ->
   margin_steps raw (len pts2d - 1) <= i
     < len pts2d - 1 - margin_steps raw (len pts2d - 1)).
Proof.
  intros H.
  assert (Hstep : 0 < arrow_step quot) by (unfold arrow_step; lia).
  pose proof (margin_steps_bounds raw (len pts2d - 1)) as [Hm0 Hm1].
  assert (Hi : 0 <= i /\ i + 1 < len pts2d).
  { destruct H as [H | H].
    - apply (py_range_In _ _ _ _ Hstep) in H as [H _]. lia.
    - apply (py_range_In _ _ _ _ Hstep) in H as [H _]. lia. }
  destruct Hi as [Hi0 Hi1].
  split; [exact Hi0|]. split; [exact Hi1|]. split.
  - destruct (py_getitem_in_range pts2d i) as [E1 [a Ea]]; [lia|].
    destruct (py_getitem_in_range pts2d (i + 1)) as [E2 [b Eb]]; [lia|].
    exists a, b. repeat split; congruence.
  - intros Ha. apply (py_range_In _ _ _ _ Hstep) in Ha as [Ha _]. exact Ha.
Qed.

(* ------------------------------------------------------------------ *)
(** ** More on the watcher's state *)

(** X20. The monitored frame follows the current frame unless it is
    locked: a poll of an active session that reads the context with the
    lock off leaves the current frame monitored, and with the lock on a
    monitored frame, once set, is kept by every poll. *)
Theorem monitored_frame_follows_or_stays (g : Session) (host : Host) :
  (running g -> context_raises host = false -> lock_mode host = false ->
   _monitored_frame (poll g host) = Some (live_frame host)) /\
  (forall m, _monitored_frame g = Some m -> lock_mode host = true ->
   _monitored_frame (poll g host) = Some m).
Proof.
  split.
  - intros Hrun Hc Hl. rewrite (poll_watch_globals g host Hrun).
    unfold watch_globals. rewrite Hc, Hl. cbn [andb].
    destruct (frame_changed _ _) eqn:Hf; [reflexivity|].
    apply frame_changed_false in Hf. unfold same_frame in Hf.
    rewrite ?advance_globals. repeat break_if; session_cbn; exact Hf.
  - intros m Hm Hl.
    destruct (_timer_keep g) eqn:Ek;
      [|rewrite (poll_stopped g host Ek); exact Hm].
    destruct (_draw_handle g) eqn:Eh;
      [|rewrite (poll_no_handle g host Ek Eh); exact Hm].
    assert (Hrun : running g) by (split; congruence).
    rewrite (poll_watch_globals g host Hrun). unfold watch_globals.
    rewrite Hl, Hm. cbn [is_some andb]. rewrite ?advance_globals.
    repeat break_if; session_cbn; exact Hm.
Qed.

(** X21. Outside a wait the last-seen count tracks the document: when no
    commit is pending before nor after a poll of an active session that
    read the context, the last-seen count after the poll is the live stroke
    count of the current frame. *)
Theorem monitoring_tracks_live_count (g : Session) (host : Host) :
  running g ->
  context_raises host = false ->
  _pending_active g = false ->
  _pending_active (poll g host) = false ->
  _last_current_frame_count (poll g host) = live_count host.
Proof.
  intros Hrun Hc Hp. rewrite (poll_watch_globals g host Hrun).
  unfold watch_globals. rewrite Hc, Hp, ?advance_globals.
  repeat break_if; session_cbn; intros Hp'; bool_prop;
    try reflexivity; try discriminate; lia.
Qed.

(** X22. A removal seen during a wait is resolved in two polls. When the
    wait ends (count and point count as recorded, debounce elapsed) with a
    target not above the last-seen count, the poll only clears the pending
    flag; a next poll on the same frame that sees the same count, if below
    the last-seen count, sets the last-seen count to it and the guide index
    to [min(count, len(strokes)-1)] (0 for an empty cache). *)
Theorem removal_during_wait_resolves (g : Session) (host host2 : Host) :
  running g ->
  _pending_active g = true ->
  same_frame g host ->
  context_raises host = false ->
  live_count host = _pending_target g ->
  live_pointlen host = _pending_last_pointlen g ->
  (_debounce_seconds <= time_time host - _pending_time g)%Q ->
  _pending_target g <= _last_current_frame_count g ->
  context_raises host2 = false ->
  live_frame host2 = live_frame host ->
  live_count host2 = live_count host ->
  poll g host = set_pending_active false g /\
  (_pending_target g < _last_current_frame_count g ->
   _last_current_frame_count (poll (poll g host) host2) = live_count host2 /\
   _pending_active (poll (poll g host) host2) = false /\
   _guide_index (poll (poll g host) host2) =
     match _guide_strokes_world g with
     | [] => 0
     | _ :: _ =>
       Z.min (live_count host2) (len (_guide_strokes_world g) - 1)
     end).
Proof.
  intros Hrun Hp Hf Hc Hn Hl Hd Hle Hc2 Hf2 Hn2.
  assert (E1 : poll g host = set_pending_active false g).
  { rewrite (poll_watch_globals g host Hrun). unfold watch_globals.
    rewrite Hc, (frame_changed_same g host Hf),
      (monitored_pointlen_same g host Hf), Hp, Hn, Hl, !Z.eqb_refl.
    cbn [negb]. apply Qle_bool_iff in Hd. rewrite Hd.
    assert (E : (0 <? _pending_target g - _last_current_frame_count g) = false)
      by (apply Z.ltb_ge; lia).
    rewrite E. reflexivity. }
  split; [exact E1|]. intros Hlt.
  assert (Hrun1 : running (poll g host)) by (apply poll_keeps_running; exact Hrun).
  rewrite (poll_watch_globals (poll g host) host2 Hrun1), E1.
  pose proof (frame_changed_same g host Hf) as Hfc.
  unfold watch_globals. session_cbn. rewrite Hc2, Hf2, Hfc, Hn2, Hn.
  assert (Ea : (_last_current_frame_count g <? _pending_target g) = false)
    by (apply Z.ltb_ge; lia).
  assert (Eb : (_pending_target g <? _last_current_frame_count g) = true)
    by (apply Z.ltb_lt; lia).
  rewrite Ea, Eb. cbv zeta. unfold resync_index. session_cbn.
  split; [reflexivity|]. split; [reflexivity|].
  destruct (_guide_strokes_world g) eqn:Es; [reflexivity|].
  assert (0 < len (s :: l)) by (apply len_pos; discriminate). lia.
Qed.

(** X23. With no commit pending, the pending target, time stamp and point
    count are not read: two sessions that differ only in these three
    globals are taken by a poll to sessions that agree on every other
    global, and on these three as well if the poll starts a wait. Start,
    which leaves them as they were, need not reset them. *)
Theorem stale_pending_fields_not_read
    (g : Session) (host : Host) (target : Z) (time : Q) (pointlen : Z) :
  _pending_active g = false ->
  let g0 := set_pending_last_pointlen pointlen
              (set_pending_time time (set_pending_target target g)) in
  _guide_index (poll g0 host) = _guide_index (poll g host) /\
  _last_current_frame_count (poll g0 host)
    = _last_current_frame_count (poll g host) /\
  _advances_since_check (poll g0 host) = _advances_since_check (poll g host) /\
  _guide_strokes_world (poll g0 host) = _guide_strokes_world (poll g host) /\
  _monitored_frame (poll g0 host) = _monitored_frame (poll g host) /\
  _pending_active (poll g0 host) = _pending_active (poll g host) /\
  _timer_keep (poll g0 host) = _timer_keep (poll g host) /\
  _draw_handle (poll g0 host) = _draw_handle (poll g host) /\
  (_pending_active (poll g host) = true -> poll g0 host = poll g host).
Proof.
  intros Hp g0.
  destruct (_timer_keep g) eqn:Ek.
  2:{ rewrite (poll_stopped g host Ek), (poll_stopped g0 host Ek).
      repeat split; try reflexivity. congruence. }
  destruct (_draw_handle g) eqn:Eh.
  2:{ rewrite (poll_no_handle g host Ek Eh), (poll_no_handle g0 host Ek Eh).
      repeat split; try reflexivity. simpl. congruence. }
  assert (Hrun : running g) by (split; congruence).
  assert (Hrun0 : running g0) by (split; simpl; congruence).
  rewrite (poll_watch_globals g host Hrun), (poll_watch_globals g0 host Hrun0).
  unfold watch_globals, monitored_pointlen, resync_index.
  rewrite ?advance_globals.
  unfold advance_strokes, advance_counter, advance_index. subst g0.
  session_cbn. rewrite Hp.
  repeat break_if; session_cbn;
    repeat split; try reflexivity; try discriminate;
    intros; congruence.
Qed.

(** X24. Pressing start again changes nothing but the timers: after a
    start that returned FINISHED, a second start under the same host leaves
    every global as the first left it, and registers the watcher with the
    host's timers once more. *)
Theorem restart_is_idempotent (g : Session) (host : Host) :
  outcome (GP_OT_GuideStart_execute host g) = Ret FINISHED ->
  globals (GP_OT_GuideStart_execute host
             (globals (GP_OT_GuideStart_execute host g)))
    = globals (GP_OT_GuideStart_execute host g) /\
  outcome (GP_OT_GuideStart_execute host
             (globals (GP_OT_GuideStart_execute host g))) = Ret FINISHED /\
  In TimerRegister
     (effects (GP_OT_GuideStart_execute host
                 (globals (GP_OT_GuideStart_execute host g)))) /\
  forall h, ~ In (HandlerAdd h)
     (effects (GP_OT_GuideStart_execute host
                 (globals (GP_OT_GuideStart_execute host g)))).
Proof.
  unfold GP_OT_GuideStart_execute.
  destruct (get_active_gp (context host)) as [obj|]; [|discriminate].
  unfold_py. cbn.
  destruct (snapshot_raises host); cbn; [discriminate|].
  destruct (get_previous_frame_strokes_world (context host))
    as [|s0 strokes]; cbn; [discriminate|].
  destruct (_draw_handle g) eqn:Eh; cbn.
  - destruct (redraw_raises host); cbn; [discriminate|]. intros _.
    rewrite Eh. cbn.
    split; [reflexivity|]. split; [reflexivity|]. split.
    + cbn. left. reflexivity.
    + intros h0 H. cbn in H. intuition discriminate.
  - destruct (handler_add host); cbn; [|discriminate].
    destruct (redraw_raises host); cbn; [discriminate|]. intros _.
    split; [reflexivity|]. split; [reflexivity|]. split.
    + cbn. left. reflexivity.
    + intros h0 H. cbn in H. intuition discriminate.
Qed.

(* ------------------------------------------------------------------ *)
(** ** The further theorems at work on the scenario *)

Lemma nearest_previous_frame_is_nearest_witness :
  In More.source_frame (frames More.layer_two_drawn) /\
  frame_number More.source_frame < 2 /\
  (exists s strokes, drawing More.source_frame = Some (s :: strokes)) /\
  (forall f, In f (frames More.layer_two_drawn) ->
     frame_number f < 2 -> has_strokes f = true ->
     frame_number f <= frame_number More.source_frame).
Proof.
  apply (nearest_previous_frame_is_nearest More.layer_two_drawn 2
           More.source_frame).
  vm_compute. reflexivity.
Defined.

Lemma nearest_previous_frame_none_iff_witness :
  find_nearest_previous_frame More.layer_two_drawn 1 = None.
Proof.
  apply (nearest_previous_frame_none_iff More.layer_two_drawn 1).
  intros f [<- | [<- | []]] [H _]; vm_compute in H; discriminate.
Defined.

Lemma snapshot_keeps_order_and_points_witness :
  map (@List.length Vector)
      (get_previous_frame_strokes_world More.context_two_drawn) =
  map (@List.length Vector) Scenario.source_strokes.
Proof.
  destruct (snapshot_keeps_order_and_points More.context_two_drawn
              {| type := "GREASEPENCIL";
                 data := {| layers := [More.layer_two_drawn];
                            layers_active := Some More.layer_two_drawn |};
                 matrix_world := fun p => p |}
              More.layer_two_drawn More.source_frame Scenario.source_strokes)
    as (_ & H).
  - vm_compute. reflexivity.
  - discriminate.
  - vm_compute. reflexivity.
  - vm_compute. reflexivity.
  - vm_compute. reflexivity.
  - apply H. repeat constructor; discriminate.
Defined.

Lemma snapshot_edge_cases_witness :
  get_previous_frame_strokes_world More.nothing_selected = [].
Proof.
  destruct (snapshot_edge_cases More.nothing_selected) as (_ & H & _).
  apply H. vm_compute. reflexivity.
Defined.

Lemma lookup_frame_sound_complete_witness :
  frame_number More.source_frame = 1 /\
  (active_frame More.layer_two_drawn = Some More.source_frame \/
   In More.source_frame (frames More.layer_two_drawn)).
Proof.
  destruct (lookup_frame_sound_complete More.layer_two_drawn 1) as (H & _).
  apply H. vm_compute. reflexivity.
Defined.

Lemma pointlen_zero_when_no_strokes_witness :
  get_last_stroke_pointlen More.context_two_drawn 7 = 0.
Proof.
  destruct (pointlen_zero_when_no_strokes More.context_two_drawn 7)
    as (H & _).
  - intros obj E _. vm_compute in E. inversion E. discriminate.
  - apply H. vm_compute. reflexivity.
Defined.

Lemma polls_keep_counts_nonneg_witness :
  0 <= _guide_index
         (run_polls Scenario.started Scenario.edit_source_after_two) /\
  0 <= _last_current_frame_count
         (run_polls Scenario.started Scenario.edit_source_after_two) /\
  0 <= _advances_since_check
         (run_polls Scenario.started Scenario.edit_source_after_two).
Proof.
  apply (polls_keep_counts_nonneg Scenario.edit_source_after_two
           Scenario.started).
  - vm_compute. discriminate.
  - vm_compute. discriminate.
  - vm_compute. discriminate.
Defined.

Lemma index_write_restores_range_witness :
  _guide_index (poll More.out_of_range More.fourth_stroke_after_edit)
    < len (_guide_strokes_world More.out_of_range) /\
  (0 <= _guide_index More.out_of_range ->
   0 <= _guide_index (poll More.out_of_range More.fourth_stroke_after_edit)).
Proof.
  apply (index_write_restores_range More.out_of_range
           More.fourth_stroke_after_edit).
  - vm_compute. discriminate.
  - vm_compute. reflexivity.
  - vm_compute. discriminate.
Defined.

Lemma frame_change_resync_witness :
  _pending_active (poll Scenario.started More.visit_frame1) = false /\
  _last_current_frame_count (poll Scenario.started More.visit_frame1)
    = live_count More.visit_frame1.
Proof.
  destruct (frame_change_resync Scenario.started More.visit_frame1)
    as (H1 & H2 & _).
  - split; [vm_compute; reflexivity | vm_compute; discriminate].
  - vm_compute. reflexivity.
  - vm_compute. discriminate.
  - split; [exact H1 | exact H2].
Defined.

Lemma start_establishes_session_witness :
  running (globals (GP_OT_GuideStart_execute More.start_host Scenario.loaded))
  /\
  index_in_range
    (globals (GP_OT_GuideStart_execute More.start_host Scenario.loaded)).
Proof.
  destruct (start_establishes_session Scenario.loaded More.start_host)
    as (H1 & H2 & _).
  - vm_compute. reflexivity.
  - split; [exact H1 | exact H2].
Defined.

Lemma start_installs_one_handler_witness :
  _draw_handle
    (globals (GP_OT_GuideStart_execute More.start_host Scenario.started))
    = Some 1 /\
  forall h', ~ In (HandlerAdd h')
    (effects (GP_OT_GuideStart_execute More.start_host Scenario.started)).
Proof.
  destruct (start_installs_one_handler Scenario.started More.start_host)
    as (H & _).
  apply H. vm_compute. reflexivity.
Defined.

Lemma commit_applied_once_witness :
  _guide_index (poll (poll More.waiting More.settled_failing_redraw)
                     More.settled_later)
    = _guide_index (poll More.waiting More.settled_failing_redraw) /\
  _pending_active (poll (poll More.waiting More.settled_failing_redraw)
                        More.settled_later) = false.
Proof.
  destruct (commit_applied_once More.waiting More.settled_failing_redraw
              More.settled_later 1) as (H1 & _ & _ & _ & H5).
  - split; [split; [vm_compute; reflexivity | vm_compute; discriminate]|].
    split; [vm_compute; reflexivity|]. split; [vm_compute; reflexivity|].
    split; [vm_compute; reflexivity|].
    right. repeat split; vm_compute; reflexivity || discriminate.
  - vm_compute. reflexivity.
  - vm_compute. reflexivity.
  - vm_compute. reflexivity.
  - vm_compute. reflexivity.
  - vm_compute. reflexivity.
  - vm_compute. discriminate.
  - split; [exact H1 | exact H5].
Defined.

Lemma release_commit_matches_immediate_witness :
  _guide_index (poll (poll Scenario.started (Scenario.sees [3] 1))
                     (Scenario.sees [3] (15 # 10)))
    = _guide_index (poll Scenario.started (Scenario.draws [3] 1)) /\
  _last_current_frame_count
    (poll (poll Scenario.started (Scenario.sees [3] 1))
          (Scenario.sees [3] (15 # 10)))
    = _last_current_frame_count
        (poll Scenario.started (Scenario.draws [3] 1)).
Proof.
  destruct (release_commit_matches_immediate Scenario.started
              (Scenario.sees [3] 1) (Scenario.sees [3] (15 # 10))
              (Scenario.draws [3] 1)) as (H1 & H2 & _).
  - split; [vm_compute; reflexivity | vm_compute; discriminate].
  - vm_compute. reflexivity.
  - vm_compute. reflexivity.
  - vm_compute. reflexivity.
  - vm_compute. reflexivity.
  - vm_compute. reflexivity.
  - vm_compute. reflexivity.
  - vm_compute. reflexivity.
  - vm_compute. reflexivity.
  - vm_compute. reflexivity.
  - vm_compute. discriminate.
  - vm_compute. reflexivity.
  - vm_compute. reflexivity.
  - vm_compute. reflexivity.
  - vm_compute. reflexivity.
  - vm_compute. reflexivity.
  - vm_compute. reflexivity.
  - vm_compute. reflexivity.
  - split; [exact H1 | exact H2].
Defined.

Lemma stop_clears_despite_failures_witness :
  outcome (GP_OT_GuideStop_execute More.visit_frame1 Scenario.started)
    = Ret FINISHED.
Proof.
  destruct (stop_clears_despite_failures Scenario.started More.visit_frame1)
    as (_ & _ & H & _).
  apply H. vm_compute. reflexivity.
Defined.

Lemma failed_integrity_check_keeps_cache_witness :
  _guide_strokes_world (poll More.two_drawn More.third_failing_snapshot)
    = _guide_strokes_world More.two_drawn /\
  _advances_since_check (poll More.two_drawn More.third_failing_snapshot) = 0.
Proof.
  destruct (failed_integrity_check_keeps_cache More.two_drawn
              More.third_failing_snapshot 1) as (H1 & H2 & _).
  - split; [split; [vm_compute; reflexivity | vm_compute; discriminate]|].
    split; [vm_compute; reflexivity|]. split; [vm_compute; reflexivity|].
    split; [vm_compute; reflexivity|].
    left. repeat split; vm_compute; reflexivity.
  - vm_compute. discriminate.
  - vm_compute. reflexivity.
  - split; [exact H1 | exact H2].
Defined.

Lemma arrow_subscripts_in_bounds_witness :
  0 <= 1 /\ 1 + 1 < len [10; 20; 30; 40; 50].
Proof.
  destruct (arrow_subscripts_in_bounds [10; 20; 30; 40; 50] 1 2 1)
    as (H1 & H2 & _).
  - left. vm_compute. left. reflexivity.
  - split; [exact H1 | exact H2].
Defined.

Lemma monitored_frame_follows_or_stays_witness :
  _monitored_frame (poll Scenario.started More.visit_frame1)
    = Some (live_frame More.visit_frame1).
Proof.
  destruct (monitored_frame_follows_or_stays Scenario.started
              More.visit_frame1) as (H & _).
  apply H.
  - split; [vm_compute; reflexivity | vm_compute; discriminate].
  - vm_compute. reflexivity.
  - vm_compute. reflexivity.
Defined.

Lemma monitoring_tracks_live_count_witness :
  _last_current_frame_count (poll More.two_drawn (Scenario.draws [2] 3))
    = live_count (Scenario.draws [2] 3).
Proof.
  apply (monitoring_tracks_live_count More.two_drawn (Scenario.draws [2] 3)).
  - split; [vm_compute; reflexivity | vm_compute; discriminate].
  - vm_compute. reflexivity.
  - vm_compute. reflexivity.
  - vm_compute. reflexivity.
Defined.

Lemma removal_during_wait_resolves_witness :
  poll More.undo_in_wait More.undo_settled
    = set_pending_active false More.undo_in_wait.
Proof.
  destruct (removal_during_wait_resolves More.undo_in_wait More.undo_settled
              More.undo_next) as (H & _).
  - split; [vm_compute; reflexivity | vm_compute; discriminate].
  - vm_compute. reflexivity.
  - vm_compute. reflexivity.
  - vm_compute. reflexivity.
  - vm_compute. reflexivity.
  - vm_compute. reflexivity.
  - vm_compute. discriminate.
  - vm_compute. discriminate.
  - vm_compute. reflexivity.
  - vm_compute. reflexivity.
  - vm_compute. reflexivity.
  - exact H.
Defined.

Lemma stale_pending_fields_not_read_witness :
  _guide_index
    (poll (set_pending_last_pointlen 9
             (set_pending_time 5 (set_pending_target 7 More.two_drawn)))
          (Scenario.draws [2; 2; 2] 3))
  = _guide_index (poll More.two_drawn (Scenario.draws [2; 2; 2] 3)).
Proof.
  destruct (stale_pending_fields_not_read More.two_drawn
              (Scenario.draws [2; 2; 2] 3) 7 5 9) as (H & _).
  - vm_compute. reflexivity.
  - exact H.
Defined.

Lemma restart_is_idempotent_witness :
  globals (GP_OT_GuideStart_execute More.start_host
             (globals (GP_OT_GuideStart_execute More.start_host
                         Scenario.loaded)))
  = globals (GP_OT_GuideStart_execute More.start_host Scenario.loaded).
Proof.
  destruct (restart_is_idempotent Scenario.loaded More.start_host) as (H & _).
  - vm_compute. reflexivity.
  - exact H.
Defined.
